(** * QuantDesk signal bot: signal computation and run scheduling

    A shallow embedding of [signal_bot.py]: the regime detector
    ([compute_tmem_regime]), the two momentum rankers
    ([compute_tmem_top_stocks], [compute_mec_top_stocks]), the three report
    formatters, the [SignalBot] scheduler with its last-run markers, and the
    two admin commands.

    Conventions of the embedding.
    - Python floats are modelled by [num]: exact rationals extended with
      [NaN] and the two infinities.  Binary rounding error and the sign of
      zero are not modelled: a rounded value can differ from the program's
      in its last digit, and a zero is printed without a minus sign.  NaN
      and infinity propagation follow IEEE 754.
    - A pandas [DataFrame] is a row count and a list of labelled columns; a
      [Series] indexed by ticker is an association list.
    - Exceptions are values of [exn]; fallible functions return [result].
    - The scheduler runs in a small state-and-exception monad over the bot
      object and a trace of the observable effects (log records, downloads,
      messages sent).  What the outside world answers during one call (clock,
      downloads, guild channels, whether a send raises) is a [World]. *)

From Stdlib Require Import ZArith QArith Qround Qabs List String Ascii Bool Lia.
From Stdlib Require Import Sorting.Sorted Sorting.Permutation DecimalString Lqa.
Import ListNotations.

Set Implicit Arguments.

(** ** Exceptions and results *)

Inductive exn : Type :=
| ValueError_need_days (need : Z) (got : nat)
    (* raise ValueError(f"Need at least {sma_lookback} days of SPY data, got {len}") *)
| ValueError_window   (* pandas: window must be an integer 0 or greater *)
| IndexError          (* pandas: single positional indexer is out-of-bounds *)
| KeyError (key : string)
| DownloadError       (* raised by the market-data provider *)
| DiscordError.       (* raised by a send *)

Inductive result (A : Type) : Type :=
| Ok (a : A)
| Err (e : exn).
Arguments Ok {A} a.
Arguments Err {A} e.

Definition result_bind {A B} (r : result A) (k : A -> result B) : result B :=
  match r with
  | Ok a => k a
  | Err e => Err e
  end.

Declare Scope result_scope.
Delimit Scope result_scope with result.
Notation "x <- r ;; k" := (result_bind r (fun x => k))
  (at level 61, r at next level, right associativity) : result_scope.

(** The spec's name for the error of line 139. *)
Definition InsufficientDataError (e : exn) : bool :=
  match e with
  | ValueError_need_days _ _ => true
  | _ => false
  end.

(** ** Numbers *)

Module Num.

Inductive num : Type :=
| NaN
| NegInf
| Fin (q : Q)
| PosInf.

Definition isnan (x : num) : bool :=
  match x with NaN => true | _ => false end.

Definition of_Z (z : Z) : num := Fin (inject_Z z).

Definition neg (x : num) : num :=
  match x with
  | NaN => NaN
  | NegInf => PosInf
  | PosInf => NegInf
  | Fin q => Fin (Qred (- q))
  end.

Definition add (x y : num) : num :=
  match x, y with
  | NaN, _ | _, NaN => NaN
  | PosInf, NegInf | NegInf, PosInf => NaN
  | PosInf, _ | _, PosInf => PosInf
  | NegInf, _ | _, NegInf => NegInf
  | Fin a, Fin b => Fin (Qred (a + b))
  end.

Definition sub (x y : num) : num := add x (neg y).

(** An infinity with the sign of [c], or NaN when [c] is [Eq]. *)
Definition signed_inf (c : comparison) : num :=
  match c with
  | Gt => PosInf
  | Lt => NegInf
  | Eq => NaN
  end.

Definition sgn (x : num) : comparison :=
  match x with
  | NaN => Eq
  | NegInf => Lt
  | PosInf => Gt
  | Fin q => (q ?= 0)%Q
  end.

Definition sgn_mul (a b : comparison) : comparison :=
  match a, b with
  | Eq, _ | _, Eq => Eq
  | Gt, c | c, Gt => c
  | Lt, Lt => Gt
  end.

Definition mul (x y : num) : num :=
  match x, y with
  | NaN, _ | _, NaN => NaN
  | Fin a, Fin b => Fin (Qred (a * b))
  | _, _ => signed_inf (sgn_mul (sgn x) (sgn y))
  end.

Definition div (x y : num) : num :=
  match x, y with
  | NaN, _ | _, NaN => NaN
  | Fin a, Fin b =>
      if Qeq_bool b 0 then signed_inf (a ?= 0)%Q else Fin (Qred (a / b))
  | Fin _, _ => Fin 0
  | _, Fin b => if Qle_bool 0 b then x else neg x
  | _, _ => NaN
  end.

Definition abs (x : num) : num :=
  match x with
  | NaN => NaN
  | NegInf | PosInf => PosInf
  | Fin q => Fin (Qred (Qabs q))
  end.

(** Comparisons; every comparison with NaN is false. *)
Definition leb (x y : num) : bool :=
  match x, y with
  | NaN, _ | _, NaN => false
  | NegInf, _ => true
  | _, PosInf => true
  | Fin a, Fin b => Qle_bool a b
  | _, _ => false
  end.

Definition ltb (x y : num) : bool :=
  match x, y with
  | NaN, _ | _, NaN => false
  | Fin a, Fin b => negb (Qle_bool b a)
  | NegInf, NegInf | PosInf, PosInf => false
  | NegInf, _ => true
  | _, PosInf => true
  | _, _ => false
  end.

Definition geb (x y : num) : bool := leb y x.
Definition gtb (x y : num) : bool := ltb y x.

(** Round half to even, to an integer. *)
Definition round_half_even (q : Q) : Z :=
  let f := Qfloor q in
  match (q - inject_Z f ?= 1 # 2)%Q with
  | Lt => f
  | Gt => (f + 1)%Z
  | Eq => if Z.even f then f else (f + 1)%Z
  end.

(** [round(x, 2)]: infinities and NaN are returned as they are. *)
Definition round2 (x : num) : num :=
  match x with
  | Fin q => Fin (Qred (inject_Z (round_half_even (q * 100)) / 100))
  | _ => x
  end.

Definition sum (l : list num) : num := fold_left add l (Fin 0).

(** Arithmetic mean; the mean of no observation is NaN (0/0). *)
Definition mean (l : list num) : num :=
  div (sum l) (of_Z (Z.of_nat (List.length l))).

End Num.
Export Num.

Declare Scope num_scope.
Delimit Scope num_scope with num.
Notation "x >=? y" := (Num.geb x y) (at level 70) : num_scope.
Notation "x >? y" := (Num.gtb x y) (at level 70) : num_scope.
Notation "x <? y" := (Num.ltb x y) (at level 70) : num_scope.
Notation "x / y" := (Num.div x y) : num_scope.
Notation "x * y" := (Num.mul x y) : num_scope.
Notation "x - y" := (Num.sub x y) : num_scope.

(** ** pandas tables *)

(** A Series indexed by ticker. *)
Definition Series (A : Type) : Type := list (string * A).

Definition index {A} (s : Series A) : list string := map fst s.

(** A DataFrame: dates down the rows, one column per ticker.  Rows are
    addressed by position; a cell a column does not hold reads as NaN.
    Column labels are meant to be distinct, as in a download, where they are
    the tickers asked for: a lookup by label takes the first column of that
    label, where pandas, on a label held twice, hands back several columns or
    raises.  A theorem that promises a result on every frame says so with a
    hypothesis. *)
Record DataFrame : Type := mkDataFrame {
  df_nrows : nat;
  df_cols : list (string * list num)
}.

Definition cell (c : list num) (i : nat) : num := nth i c NaN.

(** [df.empty]: some axis has length zero. *)
Definition df_empty (df : DataFrame) : bool :=
  (df_nrows df =? 0)%nat || match df_cols df with [] => true | _ => false end.

Definition lookup {A} (t : string) (s : Series A) : option A :=
  match find (fun p => String.eqb (fst p) t) s with
  | Some p => Some (snd p)
  | None => None
  end.

Definition mem (t : string) (l : list string) : bool :=
  existsb (String.eqb t) l.

(** [df.shift(k)]: row [i] takes the value of row [i - k]; the first [k]
    rows are NaN. *)
Definition shift_col (k n : nat) (c : list num) : list num :=
  map (fun i => if (i <? k)%nat then NaN else cell c (i - k)) (seq 0 n).

Definition shift (k : nat) (df : DataFrame) : DataFrame :=
  {| df_nrows := df_nrows df;
     df_cols := map (fun tc => (fst tc, shift_col k (df_nrows df) (snd tc)))
                    (df_cols df) |}.

(** Cell-wise arithmetic of two frames.  Both frames of one download share
    the date index, so rows align by position; columns align by label, and
    a label held by one frame only gives a NaN column. *)
Definition binop_col (f : num -> num -> num) (n : nat) (a b : list num)
  : list num :=
  map (fun i => f (cell a i) (cell b i)) (seq 0 n).

Definition df_binop (f : num -> num -> num) (a b : DataFrame) : DataFrame :=
  let n := Nat.max (df_nrows a) (df_nrows b) in
  {| df_nrows := n;
     df_cols :=
       map (fun tc =>
              (fst tc,
               match lookup (fst tc) (df_cols b) with
               | Some cb => binop_col f n (snd tc) cb
               | None => repeat NaN n
               end)) (df_cols a)
       ++ map (fun tc => (fst tc, repeat NaN n))
              (filter (fun tc => negb (mem (fst tc) (index (df_cols a))))
                      (df_cols b)) |}.

Definition df_map (f : num -> num) (a : DataFrame) : DataFrame :=
  {| df_nrows := df_nrows a;
     df_cols := map (fun tc => (fst tc, map f (snd tc))) (df_cols a) |}.

(** [df.iloc[-1]]: the last row as a Series; IndexError on a frame with no
    row. *)
Definition iloc_last (df : DataFrame) : result (Series num) :=
  match df_nrows df with
  | O => Err IndexError
  | S n => Ok (map (fun tc => (fst tc, cell (snd tc) n)) (df_cols df))
  end.

(** What pandas' rolling windows make of a cell before they aggregate: an
    infinity counts as a missing value. *)
Definition finite_or_nan (x : num) : num :=
  match x with
  | PosInf | NegInf => NaN
  | _ => x
  end.

(** [df.rolling(w).mean()]: at row [i] the mean of the [w] rows ending at
    [i]; NaN while fewer than [w] rows are there, or when the window holds a
    NaN or an infinity ([min_periods] is [w]). *)
Definition window (w i : nat) (c : list num) : list num :=
  map (fun j => finite_or_nan (cell c j)) (seq (i + 1 - w) w).

Definition rolling_mean_col (w n : nat) (c : list num) : list num :=
  map (fun i => if (i + 1 <? w)%nat then NaN else mean (window w i c)) (seq 0 n).

Definition rolling_mean (w : nat) (df : DataFrame) : DataFrame :=
  {| df_nrows := df_nrows df;
     df_cols := map (fun tc => (fst tc, rolling_mean_col w (df_nrows df) (snd tc)))
                    (df_cols df) |}.

Definition dropna (s : Series num) : Series num :=
  filter (fun p => negb (isnan (snd p))) s.

(** [s >= x] and [s > x], cell-wise. *)
Definition series_ge (s : Series num) (x : num) : Series bool :=
  map (fun p => (fst p, (snd p >=? x)%num)) s.

(** [mask[mask].index]: the labels where the mask holds. *)
Definition true_index (m : Series bool) : list string :=
  index (filter (fun p => snd p) m).

(** [a.intersection(b)], in the order of [a]. *)
Definition intersection (a b : list string) : list string :=
  filter (fun t => mem t b) a.

(** [s[idx]]: the entries of [s] at the labels [idx], in the order of
    [idx]; KeyError at a label [s] does not hold. *)
Fixpoint select (s : Series num) (idx : list string) : result (Series num) :=
  match idx with
  | [] => Ok []
  | t :: idx' =>
      match lookup t s with
      | None => Err (KeyError t)
      | Some v =>
          match select s idx' with
          | Ok r => Ok ((t, v) :: r)
          | Err e => Err e
          end
      end
  end.

(** [s.reindex(idx)]: as [select], with NaN at a label [s] does not hold. *)
Definition reindex (s : Series num) (idx : list string) : Series num :=
  map (fun t => (t, match lookup t s with Some v => v | None => NaN end)) idx.

(** [s.get(t, d)] *)
Definition get (s : Series num) (t : string) (d : num) : num :=
  match lookup t s with Some v => v | None => d end.

(** [s.sort_values(ascending=False)] on a Series without NaN: insertion of
    each entry in front of the first entry that is not greater.  Entries of
    equal value keep their order; numpy's default sort promises no order
    among them, and nothing below depends on it. *)
Fixpoint insert_desc (p : string * num) (l : Series num) : Series num :=
  match l with
  | [] => [p]
  | q :: l' => if (snd p <? snd q)%num then q :: insert_desc p l' else p :: l
  end.

Definition sort_values_desc (s : Series num) : Series num :=
  fold_right insert_desc [] s.

(** [s.head(n)]: the first [n] entries, or all but the last [-n] when [n] is
    negative. *)
Definition head {A} (n : Z) (s : list A) : list A :=
  if (0 <=? n)%Z then firstn (Z.to_nat n) s
  else firstn (List.length s - Z.to_nat (- n)) s.

(** [enumerate(l, start)] *)
Fixpoint enumerate {A} (start : Z) (l : list A) : list (Z * A) :=
  match l with
  | [] => []
  | a :: l' => (start, a) :: enumerate (start + 1) l'
  end.

(** ** TMEM strategy logic *)

(** The dict [compute_tmem_regime] returns. *)
Record Regime : Type := mkRegime {
  is_risk_on : bool;
  spy_price : num;
  sma_value : num;
  pct_diff : num
}.

(** [s.iloc[-1]] on a Series addressed by position. *)
Definition last_value (s : list num) : result num :=
  match List.length s with
  | O => Err IndexError
  | S n => Ok (cell s n)
  end.

(** [s.rolling(window=w, min_periods=w)]: pandas refuses a negative
    window. *)
Definition series_rolling_mean (w : Z) (s : list num) : result (list num) :=
  if (w <? 0)%Z then Err ValueError_window
  else Ok (rolling_mean_col (Z.to_nat w) (List.length s) s).

Definition compute_tmem_regime (spy_prices : list num) (sma_lookback : Z)
  : result Regime :=
  if (Z.of_nat (List.length spy_prices) <? sma_lookback)%Z then
    Err (ValueError_need_days sma_lookback (List.length spy_prices))
  else
    (sma <- series_rolling_mean sma_lookback spy_prices ;;
     current_price <- last_value spy_prices ;;
     current_sma <- last_value sma ;;
     let is_risk_on := (current_price >? current_sma)%num in
     let pct_diff := ((current_price / current_sma - Fin 1) * Fin 100)%num in
     Ok {| is_risk_on := is_risk_on;
           spy_price := round2 current_price;
           sma_value := round2 current_sma;
           pct_diff := round2 pct_diff |})%result.

(** One dict of the list the rankers return. *)
Record Pick : Type := mkPick {
  rank : Z;
  ticker : string;
  momentum : num;
  price : num
}.

(** The [result.append({...})] loop shared by the two rankers. *)
Definition picks_of (top_n current_prices : Series num) : list Pick :=
  map (fun rp =>
         {| rank := fst rp;
            ticker := fst (snd rp);
            momentum := round2 (snd (snd rp) * Fin 100)%num;
            price := round2 (get current_prices (fst (snd rp)) (Fin 0)) |})
      (enumerate 1 top_n).

Definition compute_tmem_top_stocks (prices volume : DataFrame) (n_holdings : Z)
  : result (list Pick) :=
  (let price_end := shift 21 prices in
   let price_start := shift 252 prices in
   let momentum :=
     df_map (fun x => x - Fin 1)%num (df_binop div price_end price_start) in
   latest_row <- iloc_last momentum ;;
   let latest := dropna latest_row in
   current_prices <- iloc_last prices ;;
   let price_filter := series_ge current_prices (Fin 5) in
   let dollar_vol := df_binop mul prices volume in
   adv_60 <- iloc_last (rolling_mean 60 dollar_vol) ;;
   let adv_filter := series_ge adv_60 (of_Z 20000000) in
   let eligible := intersection (index latest) (true_index price_filter) in
   let eligible := intersection eligible (true_index adv_filter) in
   selected <- select latest eligible ;;
   let scores := sort_values_desc selected in
   let top_n := head n_holdings scores in
   Ok (picks_of top_n current_prices))%result.

(** ** MEC strategy logic *)

(** [idx[mask]] with a mask aligned on [idx]. *)
Definition mask_index (idx : list string) (m : Series bool) : list string :=
  map fst (filter (fun tb => snd (snd tb)) (combine idx m)).

Definition series_gt (s : Series num) (x : num) : Series bool :=
  map (fun p => (fst p, (snd p >? x)%num)) s.

Definition series_or (a b : Series bool) : Series bool :=
  map (fun ab => (fst (fst ab), snd (fst ab) || snd (snd ab))) (combine a b).

Definition compute_mec_top_stocks (prices volume : DataFrame) (n_holdings : Z)
  : result (list Pick) :=
  (let price_1m := shift 21 prices in
   let price_12m := shift 252 prices in
   let mom_12_1 :=
     df_map (fun x => x - Fin 1)%num (df_binop div price_1m price_12m) in
   let price_6m := shift 126 prices in
   let mom_6m :=
     df_map (fun x => x - Fin 1)%num (df_binop div price_1m price_6m) in
   let price_3m := shift 63 prices in
   let mom_3m :=
     df_map (fun x => x - Fin 1)%num (df_binop div price_1m price_3m) in
   row_12_1 <- iloc_last mom_12_1 ;;
   let latest_12_1 := dropna row_12_1 in
   row_6m <- iloc_last mom_6m ;;
   let latest_6m := dropna row_6m in
   row_3m <- iloc_last mom_3m ;;
   let latest_3m := dropna row_3m in
   current_prices <- iloc_last prices ;;
   let price_filter := series_ge current_prices (Fin 5) in
   let dollar_vol := df_binop mul prices volume in
   adv_60 <- iloc_last (rolling_mean 60 dollar_vol) ;;
   let adv_filter := series_ge adv_60 (of_Z 20000000) in
   let eligible := index latest_12_1 in
   let eligible := intersection eligible (true_index price_filter) in
   let eligible := intersection eligible (true_index adv_filter) in
   let earnings_confirmed :=
     mask_index eligible
       (series_or (series_gt (reindex latest_6m eligible) (Fin 0))
                  (series_gt (reindex latest_3m eligible) (Fin 0))) in
   selected <- select latest_12_1 earnings_confirmed ;;
   let scores := sort_values_desc selected in
   let top_n := head n_holdings scores in
   Ok (picks_of top_n current_prices))%result.

(** A table of [n] rows in which every listed ticker trades at the same
    constant price and volume. *)
Definition flat_table (n : nat) (tickers : list string) (p v : num)
  : DataFrame * DataFrame :=
  ({| df_nrows := n; df_cols := map (fun t => (t, repeat p n)) tickers |},
   {| df_nrows := n; df_cols := map (fun t => (t, repeat v n)) tickers |}).


(** ** Clock and calendar *)

(** What [datetime.now()] reads. *)
Record datetime : Type := mkDatetime {
  year : Z;
  month : Z;
  day : Z;
  hour : Z;
  minute : Z
}.

Definition is_leap (y : Z) : bool :=
  ((y mod 4 =? 0) && (negb (y mod 100 =? 0) || (y mod 400 =? 0)))%Z.

Definition days_before_year (y : Z) : Z :=
  (let y := y - 1 in y * 365 + y / 4 - y / 100 + y / 400)%Z.

Definition days_before_month (y m : Z) : Z :=
  (nth (Z.to_nat m) [0; 0; 31; 59; 90; 120; 151; 181; 212; 243; 273; 304; 334] 0
   + if (m >? 2) && is_leap y then 1 else 0)%Z.

Definition toordinal (d : datetime) : Z :=
  (days_before_year (year d) + days_before_month (year d) (month d) + day d)%Z.

(** [d.weekday()]: Monday is 0, Sunday is 6. *)
Definition weekday (d : datetime) : Z := ((toordinal d + 6) mod 7)%Z.

Section Text.
Local Open Scope string_scope.

Definition nl : string := String (ascii_of_nat 10) EmptyString.

Definition decimal (z : Z) : string := NilZero.string_of_int (Z.to_int z).

Fixpoint str_mul (s : string) (n : nat) : string :=
  match n with
  | O => ""
  | S n' => s ++ str_mul s n'
  end.

(** [{s:<w}] and [{s:>w}]; tickers and numbers are ASCII, so the byte
    length is the character count. *)
Definition ljust (w : nat) (s : string) : string :=
  s ++ str_mul " " (w - String.length s).

Definition rjust (w : nat) (s : string) : string :=
  str_mul " " (w - String.length s) ++ s.

Definition zero_pad2 (z : Z) : string :=
  let s := decimal z in
  if (String.length s <? 2)%nat then "0" ++ s else s.

Definition month_name (m : Z) : string :=
  nth (Z.to_nat m)
      [""; "January"; "February"; "March"; "April"; "May"; "June"; "July";
       "August"; "September"; "October"; "November"; "December"] "".

(** [strftime] with the four formats the bot uses.  Years have four digits. *)
Definition strftime_Y_m_d (d : datetime) : string :=      (* "%Y-%m-%d" *)
  decimal (year d) ++ "-" ++ zero_pad2 (month d) ++ "-" ++ zero_pad2 (day d).

Definition strftime_Y_m (d : datetime) : string :=        (* "%Y-%m" *)
  decimal (year d) ++ "-" ++ zero_pad2 (month d).

Definition strftime_B_d_Y (d : datetime) : string :=      (* "%B %d, %Y" *)
  month_name (month d) ++ " " ++ zero_pad2 (day d) ++ ", " ++ decimal (year d).

Definition strftime_B_Y (d : datetime) : string :=        (* "%B %Y" *)
  month_name (month d) ++ " " ++ decimal (year d).

(** [format(x, ".2f")] and, with [plus], [format(x, "+.2f")]. *)
Definition format_2f (plus : bool) (x : num) : string :=
  let positive := if plus then "+" else "" in
  match x with
  | NaN => positive ++ "nan"
  | PosInf => positive ++ "inf"
  | NegInf => "-inf"
  | Fin q =>
      let n := Z.abs (round_half_even (q * 100)) in
      (if negb (Qle_bool 0 q) then "-" else positive)
      ++ decimal (n / 100) ++ "." ++ zero_pad2 (n mod 100)
  end.


End Text.


(** ** The outside world *)

(** What [yf.download] hands back: a table whose columns are keyed by field
    ("Adj Close", "Volume", ...) and, under a MultiIndex, by ticker below the
    field. *)
Inductive yf_data : Type :=
| YfMulti (nrows : nat) (fields : list (string * list (string * list num)))
| YfFlat (nrows : nat) (fields : list (string * list num)).

Definition yf_nrows (d : yf_data) : nat :=
  match d with
  | YfMulti n _ | YfFlat n _ => n
  end.

Definition yf_ncols (d : yf_data) : nat :=
  match d with
  | YfMulti _ fields => List.length (flat_map snd fields)
  | YfFlat _ fields => List.length fields
  end.

(** [data.empty] *)
Definition yf_empty (d : yf_data) : bool :=
  (yf_nrows d =? 0)%nat || (yf_ncols d =? 0)%nat.

(** [key in data.columns] *)
Definition yf_has (key : string) (d : yf_data) : bool :=
  match d with
  | YfMulti _ fields => mem key (index fields)
  | YfFlat _ fields => mem key (index fields)
  end.

(** [data[key]]: a Series from flat columns, a DataFrame under a
    MultiIndex. *)
Inductive selection : Type :=
| SelSeries (s : list num)
| SelFrame (df : DataFrame).

Definition yf_getitem (d : yf_data) (key : string) : result selection :=
  match d with
  | YfMulti n fields =>
      match lookup key fields with
      | Some cols => Ok (SelFrame {| df_nrows := n; df_cols := cols |})
      | None => Err (KeyError key)
      end
  | YfFlat n fields =>
      match lookup key fields with
      | Some c => Ok (SelSeries (map (cell c) (seq 0 n)))
      | None => Err (KeyError key)
      end
  end.

(** [x.iloc[:, 0]] *)
Definition first_column (df : DataFrame) : result (list num) :=
  match df_cols df with
  | [] => Err IndexError
  | tc :: _ => Ok (map (cell (snd tc)) (seq 0 (df_nrows df)))
  end.

(** What the outside world answers during one call of the bot.
    - [w_now]: the clock; every reading within the call gives this value.
    - [w_download k tickers]: the answer of the [k]-th download of the call,
      a table or an exception.
    - [w_guild]: the names of the guild's text channels, [None] when the
      guild is not found.
    - [w_send_ok channel text]: whether sending [text] to the channel
      succeeds; otherwise the send raises.
    - [w_reply_ok text]: the same for a reply in the command's context. *)
Record World : Type := mkWorld {
  w_now : datetime;
  w_download : nat -> list string -> result yf_data;
  w_guild : option (list string);
  w_send_ok : string -> string -> bool;
  w_reply_ok : string -> bool
}.

Inductive level : Type := INFO | WARNING | ERROR.

(** Observable effects, in the order they happen. *)
Inductive event : Type :=
| Logged (l : level) (msg : string)
| LoggedExc (msg : string) (e : exn)    (* logger.error(f"msg: {e}", exc_info=True) *)
| Download (tickers : list string) (lookback_days : Z)
| Sent (channel : string) (text : string)
| Replied (text : string).

(** ** The bot object and its monad *)

Record SignalBot : Type := mkSignalBot {
  _last_daily_run : option string;
  _last_monthly_run : option string
}.

Record Sys : Type := mkSys {
  bot : SignalBot;
  trace : list event
}.

(** How a block of statements ends: it falls through with a value, it
    executes [return], or it raises. *)
Inductive outcome (A : Type) : Type :=
| Normal (a : A)
| Returned
| Raised (e : exn).
Arguments Normal {A} a.
Arguments Returned {A}.
Arguments Raised {A} e.

Definition M (A : Type) : Type := Sys -> outcome A * Sys.

Definition ret {A} (a : A) : M A := fun s => (Normal a, s).

Definition bind {A B} (m : M A) (k : A -> M B) : M B :=
  fun s =>
    match m s with
    | (Normal a, s') => k a s'
    | (Returned, s') => (Returned, s')
    | (Raised e, s') => (Raised e, s')
    end.

Definition raise {A} (e : exn) : M A := fun s => (Raised e, s).

Definition return_ {A} : M A := fun s => (Returned, s).

Definition lift {A} (r : result A) : M A :=
  match r with
  | Ok a => ret a
  | Err e => raise e
  end.

Definition emit (e : event) : M unit :=
  fun s => (Normal tt, {| bot := bot s; trace := trace s ++ [e] |}).

Definition get_bot : M SignalBot := fun s => (Normal (bot s), s).

Definition set_bot (b : SignalBot) : M unit :=
  fun s => (Normal tt, {| bot := b; trace := trace s |}).

(** [try: body except Exception as e: handler(e)]; a [return] in the body
    leaves through the handler untouched. *)
Definition try_except (body : M unit) (handler : exn -> M unit) : M unit :=
  fun s =>
    match body s with
    | (Raised e, s') => handler e s'
    | r => r
    end.

(** A method body: [return] ends the call normally. *)
Definition method (body : M unit) : M unit :=
  fun s =>
    match body s with
    | (Returned, s') => (Normal tt, s')
    | r => r
    end.

Declare Scope sys_scope.
Delimit Scope sys_scope with sys.
Notation "x <- m ;; k" := (bind m (fun x => k))
  (at level 61, m at next level, right associativity) : sys_scope.
Notation "m ;; k" := (bind m (fun _ => k))
  (at level 61, right associativity) : sys_scope.

Definition logger_info (msg : string) : M unit := emit (Logged INFO msg).
Definition logger_warning (msg : string) : M unit := emit (Logged WARNING msg).
Definition logger_error (msg : string) : M unit := emit (Logged ERROR msg).
Definition logger_error_exc (msg : string) (e : exn) : M unit :=
  emit (LoggedExc msg e).

Definition is_download (e : event) : bool :=
  match e with Download _ _ => true | _ => false end.

Definition is_sent (e : event) : bool :=
  match e with Sent _ _ => true | _ => false end.

Definition is_error (e : event) : bool :=
  match e with
  | Logged ERROR _ | LoggedExc _ _ => true
  | _ => false
  end.

(** The downloads and the messages of a trace. *)
Definition downloads (tr : list event) : list event := filter is_download tr.
Definition sends (tr : list event) : list event := filter is_sent tr.

Definition sent_to (channel : string) (tr : list event) : list string :=
  flat_map (fun e => match e with
                     | Sent c text => if String.eqb c channel then [text] else []
                     | _ => []
                     end) tr.

Definition opt_eqb (o : option string) (s : string) : bool :=
  match o with
  | Some x => String.eqb x s
  | None => false
  end.

(** ** S&P 500 universe *)

Definition SP500_UNIVERSE : list string := [
  (* Technology *)
  "AAPL"; "MSFT"; "GOOGL"; "META"; "NVDA"; "AVGO"; "CSCO"; "ADBE"; "CRM";
  "ORCL"; "ACN"; "IBM"; "INTC"; "AMD"; "QCOM"; "TXN"; "NOW"; "INTU"; "AMAT";
  "MU"; "ADI"; "LRCX"; "KLAC"; "SNPS"; "CDNS"; "MRVL"; "NXPI"; "MCHP"; "ON";
  (* Financials *)
  "JPM"; "BAC"; "WFC"; "GS"; "MS"; "C"; "BLK"; "SCHW"; "AXP"; "SPGI";
  "CB"; "MMC"; "PNC"; "USB"; "TFC"; "AIG"; "MET"; "PRU"; "AFL"; "ALL";
  "CME"; "ICE"; "MCO"; "MSCI"; "COF"; "DFS"; "BK"; "STT";
  (* Healthcare *)
  "UNH"; "JNJ"; "LLY"; "PFE"; "ABBV"; "MRK"; "TMO"; "ABT"; "DHR"; "BMY";
  "AMGN"; "GILD"; "ISRG"; "CVS"; "ELV"; "CI"; "MDT"; "SYK"; "BSX"; "REGN";
  "VRTX"; "ZTS"; "BDX"; "HCA"; "DXCM"; "IQV"; "A"; "IDXX";
  (* Consumer Discretionary *)
  "AMZN"; "TSLA"; "HD"; "MCD"; "NKE"; "LOW"; "SBUX"; "TJX"; "BKNG"; "CMG";
  "ORLY"; "AZO"; "ROST"; "DHI"; "LEN"; "MAR"; "HLT"; "YUM";
  "F"; "GM"; "EBAY"; "BBY"; "GPC"; "POOL"; "ULTA";
  (* Consumer Staples *)
  "PG"; "KO"; "PEP"; "COST"; "WMT"; "PM"; "MO"; "MDLZ"; "CL";
  "KMB"; "GIS"; "HSY"; "STZ"; "KHC"; "CLX"; "CHD"; "KR"; "SYY"; "ADM";
  (* Industrials *)
  "CAT"; "DE"; "UNP"; "UPS"; "HON"; "RTX"; "BA"; "LMT"; "GE";
  "ETN"; "ITW"; "EMR"; "PH"; "ROK"; "CMI"; "PCAR"; "FAST"; "ODFL"; "CSX";
  "NSC"; "WM"; "RSG"; "GD"; "NOC"; "TT"; "CARR";
  (* Energy *)
  "XOM"; "CVX"; "COP"; "SLB"; "EOG"; "MPC"; "PSX"; "VLO"; "OXY";
  "HES"; "DVN"; "FANG"; "HAL"; "BKR"; "KMI"; "WMB"; "OKE";
  (* Materials *)
  "LIN"; "APD"; "SHW"; "ECL"; "DD"; "NEM"; "FCX"; "NUE"; "VMC"; "MLM";
  "DOW"; "PPG";
  (* Utilities *)
  "NEE"; "DUK"; "SO"; "D"; "AEP"; "SRE"; "EXC"; "XEL";
  (* Communication *)
  "GOOG"; "NFLX"; "DIS"; "CMCSA"; "T"; "VZ"; "TMUS"; "CHTR";
  (* REITs *)
  "PLD"; "AMT"; "CCI"; "EQIX"; "PSA"; "O"
]%string.

(** ** Discord message formatting *)

Section Bot.

(** [str(x)] of a float, the shortest decimal that reads back as [x]:
    Python's own, taken as given. *)
Variable float_repr : num -> string.

(** The world the call runs in.  The formatters take the arguments listed
    after it and read the clock themselves, as [datetime.now()]. *)
Variable w : World.

Local Open Scope string_scope.

Definition datetime_now : datetime := w_now w.

Definition disclaimer : string :=
  nl ++ nl ++ "*⚠️ This is not financial advice. "
  ++ "Past performance does not guarantee future results.*".

Definition rule_line : string := "━━━━━━━━━━━━━━━━━━━━━━━━━".

Definition format_tmem_daily_signal (regime : Regime) : string :=
  let status := if is_risk_on regime then "🟢 RISK-ON" else "🔴 RISK-OFF" in
  let direction := if is_risk_on regime then "above" else "below" in
  let msg :=
    "**📊 TMEM Daily Signal — " ++ strftime_B_d_Y datetime_now ++ "**" ++ nl
    ++ rule_line ++ nl ++ nl
    ++ "**Regime: " ++ status ++ "**" ++ nl ++ nl
    ++ "SPY: **$" ++ float_repr (spy_price regime) ++ "**" ++ nl
    ++ "200-day SMA: **$" ++ float_repr (sma_value regime) ++ "**" ++ nl
    ++ "SPY is **" ++ format_2f false (abs (pct_diff regime)) ++ "%** "
    ++ direction ++ " the 200-SMA" ++ nl ++ nl in
  let msg :=
    if is_risk_on regime then
      msg ++ "**Action:** Hold top 30 momentum stocks." ++ nl
          ++ "Portfolio remains fully invested in equities."
    else
      msg ++ "**Action:** Move to defensive allocation (cash/T-bills)." ++ nl
          ++ "Capital preservation mode active." in
  msg ++ disclaimer.

(** The two lines that head the table of picks. *)
Definition table_header : string :=
  ljust 6 "Rank" ++ " " ++ ljust 8 "Ticker" ++ " " ++ ljust 12 "12-1 Mom %"
  ++ " " ++ rjust 8 "Price" ++ nl
  ++ str_mul "─" 6 ++ " " ++ str_mul "─" 8 ++ " " ++ str_mul "─" 12 ++ " "
  ++ str_mul "─" 8 ++ nl.

(** One row of the table, as the [for pick in picks] loop appends it. *)
Definition table_row (pick : Pick) : string :=
  ljust 6 (decimal (rank pick)) ++ " " ++ ljust 8 (ticker pick) ++ " "
  ++ rjust 10 (format_2f true (momentum pick)) ++ "%  $"
  ++ rjust 7 (format_2f false (price pick)) ++ nl.

Definition table_rows (msg : string) (picks : list Pick) : string :=
  fold_left (fun msg pick => msg ++ table_row pick) picks msg.

Definition code_fence : string := "```".

Definition format_tmem_monthly_picks (regime : Regime) (picks : list Pick)
  : string :=
  let status := if is_risk_on regime then "🟢 RISK-ON" else "🔴 RISK-OFF" in
  let date_str := strftime_B_Y datetime_now in
  let msg :=
    "**📊 TMEM Quarterly Rebalance — " ++ date_str ++ "**" ++ nl
    ++ rule_line ++ nl ++ nl
    ++ "**Regime: " ++ status ++ "**" ++ nl ++ nl in
  let msg :=
    if negb (is_risk_on regime) then
      msg ++ "SPY is **below** the 200-day SMA." ++ nl
          ++ "**Action:** 100% defensive — hold cash/T-bills (BIL)." ++ nl
          ++ "No equity positions this month." ++ nl ++ nl
          ++ "*Portfolio will re-enter equities when SPY crosses above the 200-SMA.*"
    else
      let msg :=
        msg ++ "**Top 30 Momentum Stocks — Equal Weight (3.33% each):**"
            ++ nl ++ nl in
      let msg := msg ++ code_fence ++ nl in
      let msg := msg ++ table_header in
      let msg := table_rows msg picks in
      let msg := msg ++ code_fence ++ nl ++ nl in
      msg ++ "**Rebalance instructions:**" ++ nl
          ++ "• Equal-weight all 30 stocks at ~3.33% each" ++ nl
          ++ "• Sell any stocks no longer in the top 30" ++ nl
          ++ "• Buy new entries at equal weight" ++ nl
          ++ "• Next rebalance: 1st trading day of next quarter (Jan/Apr/Jul/Oct)" in
  msg ++ disclaimer.

Definition format_mec_monthly_picks (picks : list Pick) : string :=
  let date_str := strftime_B_Y datetime_now in
  let msg :=
    "**📊 MEC Monthly Rebalance — " ++ date_str ++ "**" ++ nl
    ++ rule_line ++ nl ++ nl
    ++ "**Top 40 Momentum + Earnings Confirmed Stocks**" ++ nl
    ++ "Equal Weight (2.50% each) | Fully Invested" ++ nl ++ nl in
  let msg := msg ++ code_fence ++ nl in
  let msg := msg ++ table_header in
  let msg := table_rows msg picks in
  let msg := msg ++ code_fence ++ nl ++ nl in
  let msg :=
    msg ++ "**Rebalance instructions:**" ++ nl
        ++ "• Equal-weight all 40 stocks at 2.50% each" ++ nl
        ++ "• Sell any stocks no longer in the top 40" ++ nl
        ++ "• Buy new entries at equal weight" ++ nl
        ++ "• MEC remains fully invested — no market timing" ++ nl
        ++ "• Next rebalance: 1st trading day of next month" in
  msg ++ disclaimer.

(** ** Data fetching *)

Local Open Scope sys_scope.

(** [yf.download(tickers, ...)]: the world's answer to the next download of
    the call. *)
Definition yf_download (tickers : list string) (lookback_days : Z) : M yf_data :=
  fun s =>
    let k := List.length (downloads (trace s)) in
    lift (w_download w k tickers)
         {| bot := bot s;
            trace := (trace s ++ [Download tickers lookback_days])%list |}.

Definition fetch_spy_data (lookback_days : Z) : M yf_data :=
  yf_download ["SPY"] lookback_days.

Definition empty_frame : DataFrame := {| df_nrows := 0; df_cols := [] |}.

(** [data[[key]].rename(columns={key: tickers[0]})]: the column is
    selected first, then the first ticker is read. *)
Definition renamed_column (data : yf_data) (key : string) (tickers : list string)
  : result DataFrame :=
  (sel <- yf_getitem data key ;;
   name <- match tickers with
           | t :: _ => Ok t
           | [] => Err IndexError
           end ;;
   Ok match sel with
      | SelSeries c => {| df_nrows := yf_nrows data; df_cols := [(name, c)] |}
      | SelFrame df => df
      end)%result.

Definition as_frame (sel : selection) : DataFrame :=
  match sel with
  | SelFrame df => df
  | SelSeries c => {| df_nrows := List.length c; df_cols := [("", c)] |}
  end.

(** What [fetch_universe_data] makes of the download: two empty frames from
    an empty table; the "Adj Close" and "Volume" tables under a MultiIndex;
    otherwise (single ticker) these two columns, renamed to the ticker. *)
Definition split_download (tickers : list string) (data : yf_data)
  : result (DataFrame * DataFrame) :=
  (if yf_empty data then Ok (empty_frame, empty_frame)
   else
     match data with
     | YfMulti _ _ =>
         prices <- yf_getitem data "Adj Close" ;;
         volume <- yf_getitem data "Volume" ;;
         Ok (as_frame prices, as_frame volume)
     | YfFlat _ _ =>
         prices <- renamed_column data "Adj Close" tickers ;;
         volume <- renamed_column data "Volume" tickers ;;
         Ok (prices, volume)
     end)%result.

Definition fetch_universe_data (tickers : list string) (lookback_days : Z)
  : M (DataFrame * DataFrame) :=
  logger_info ("Fetching data for " ++ decimal (Z.of_nat (List.length tickers))
               ++ " tickers...") ;;
  data <- yf_download tickers lookback_days ;;
  lift (split_download tickers data).

(** ** Signal runner *)

Definition tmem_channel : string := "📊-tmem-signals".
Definition mec_channel : string := "📊-mec-signals".

(** [SignalBot.get_channel]: the first text channel of the guild with that
    name; [None] without the guild or without such a channel. *)
Definition get_channel (name : string) : option string :=
  match w_guild w with
  | None => None
  | Some text_channels => find (String.eqb name) text_channels
  end.

(** [await channel.send(msg)] *)
Definition channel_send (channel msg : string) : M unit :=
  if w_send_ok w channel msg then emit (Sent channel msg)
  else raise DiscordError.

(** [await ctx.send(msg)] *)
Definition ctx_send (msg : string) : M unit :=
  if w_reply_ok w msg then emit (Replied msg) else raise DiscordError.

(** The adjusted closes of the SPY table: the column "Adj Close", or
    "Close" without it; under a MultiIndex, its first column. *)
Definition adj_close_series (spy_data : yf_data) : result (list num) :=
  (spy_prices <- (if yf_has "Adj Close" spy_data
                  then yf_getitem spy_data "Adj Close"
                  else yf_getitem spy_data "Close") ;;
   match spy_prices with
   | SelFrame df => first_column df
   | SelSeries c => Ok c
   end)%result.

Definition set_last_daily_run (v : option string) : M unit :=
  self <- get_bot ;;
  set_bot {| _last_daily_run := v;
             _last_monthly_run := _last_monthly_run self |}.

Definition set_last_monthly_run (v : option string) : M unit :=
  self <- get_bot ;;
  set_bot {| _last_daily_run := _last_daily_run self;
             _last_monthly_run := v |}.

Definition run_daily_tmem_signal : M unit :=
  method
    (let today := strftime_Y_m_d datetime_now in
     self <- get_bot ;;
     if opt_eqb (_last_daily_run self) today then
       logger_info "Daily TMEM signal already posted today, skipping." ;;
       return_
     else
       logger_info "Running TMEM daily regime check..." ;;
       try_except
         (spy_data <- fetch_spy_data 400 ;;
          if yf_empty spy_data then
            logger_error "Failed to fetch SPY data" ;;
            return_
          else
            spy_prices <- lift (adj_close_series spy_data) ;;
            regime <- lift (compute_tmem_regime spy_prices 200) ;;
            let msg := format_tmem_daily_signal regime in
            let channel := get_channel tmem_channel in
            match channel with
            | Some channel =>
                channel_send channel msg ;;
                logger_info
                  ("Posted TMEM daily signal: "
                   ++ (if is_risk_on regime then "RISK-ON" else "RISK-OFF")
                   ++ " (SPY $" ++ float_repr (spy_price regime)
                   ++ " vs SMA $" ++ float_repr (sma_value regime) ++ ")")
            | None => logger_warning "Channel 📊-tmem-signals not found"
            end ;;
            set_last_daily_run (Some today))
         (fun e => logger_error_exc "TMEM daily signal failed" e)).

Definition is_tmem_quarter (today : datetime) : bool :=
  existsb (Z.eqb (month today)) [1; 4; 7; 10]%Z.

(** The body of [if is_tmem_quarter:]. *)
Definition tmem_quarterly_rebalance (spy_prices : list num)
  (prices volume : DataFrame) : M unit :=
  regime <- lift (compute_tmem_regime spy_prices 200) ;;
  tmem_picks <- (if is_risk_on regime
                 then lift (compute_tmem_top_stocks prices volume 30)
                 else ret []) ;;
  let tmem_msg := format_tmem_monthly_picks regime tmem_picks in
  let tmem_channel' := get_channel tmem_channel in
  match tmem_channel' with
  | Some channel =>
      channel_send channel tmem_msg ;;
      logger_info ("Posted TMEM quarterly rebalance: "
                   ++ decimal (Z.of_nat (List.length tmem_picks)) ++ " stocks")
  | None => logger_warning "Channel 📊-tmem-signals not found"
  end.

(** The statements under [MEC Rebalance (Monthly)]. *)
Definition mec_monthly_rebalance (prices volume : DataFrame) : M unit :=
  mec_picks <- lift (compute_mec_top_stocks prices volume 40) ;;
  let mec_msg := format_mec_monthly_picks mec_picks in
  let mec_channel' := get_channel mec_channel in
  match mec_channel' with
  | Some channel =>
      channel_send channel mec_msg ;;
      logger_info ("Posted MEC monthly rebalance: "
                   ++ decimal (Z.of_nat (List.length mec_picks)) ++ " stocks")
  | None => logger_warning "Channel 📊-mec-signals not found"
  end.

Definition run_monthly_rebalance : M unit :=
  method
    (let today := datetime_now in
     let month_key := strftime_Y_m today in
     self <- get_bot ;;
     if opt_eqb (_last_monthly_run self) month_key then
       logger_info "Rebalance already posted this month, skipping." ;;
       return_
     else if (day today >? 3)%Z then
       return_
     else
       logger_info "Running rebalance..." ;;
       try_except
         (spy_data <- fetch_spy_data 400 ;;
          pv <- fetch_universe_data SP500_UNIVERSE 400 ;;
          let prices := fst pv in
          let volume := snd pv in
          if df_empty prices then
            logger_error "Failed to fetch universe data" ;;
            return_
          else
            spy_prices <- lift (adj_close_series spy_data) ;;
            (if is_tmem_quarter today then
               tmem_quarterly_rebalance spy_prices prices volume
             else
               logger_info
                 ("Skipping TMEM rebalance — not a quarter month (current: "
                  ++ decimal (month today) ++ ")")) ;;
            mec_monthly_rebalance prices volume ;;
            set_last_monthly_run (Some month_key))
         (fun e => logger_error_exc "Rebalance failed" e)).

Definition run_all_signals : M unit :=
  method
    (let now := datetime_now in
     (if (weekday now <? 5)%Z then run_daily_tmem_signal else ret tt) ;;
     (if (day now <=? 3)%Z && (weekday now <? 5)%Z
      then run_monthly_rebalance else ret tt)).

(** ** Discord task setup *)

(** The scheduled task and the admin command close over the module's
    [signal_bot]; [initialised] says whether it holds the bot object. *)
Definition daily_signal_task (initialised : bool) : M unit :=
  method (if initialised then run_all_signals else ret tt).

Definition cmd_force_signals (initialised : bool) : M unit :=
  method
    (ctx_send "⚙️ Running signals manually..." ;;
     if initialised then
       run_all_signals ;;
       ctx_send "✅ Signals posted!"
     else
       ctx_send "❌ Signal bot not initialized").

(** A call on the bot object [b], from an empty trace. *)
Definition call (m : M unit) (b : SignalBot) : outcome unit * Sys :=
  m {| bot := b; trace := [] |}.

End Bot.

Definition bot_after (r : outcome unit * Sys) : SignalBot := bot (snd r).
Definition trace_of (r : outcome unit * Sys) : list event := trace (snd r).

(** ** The regime command *)

Section Commands.
Local Open Scope string_scope.

(** [spy_data["Adj Close"]], and its first column under a MultiIndex.  The
    command, unlike the daily cycle, does not fall back to "Close". *)
Definition adj_close_column (spy_data : yf_data) : result (list num) :=
  (spy_prices <- yf_getitem spy_data "Adj Close" ;;
   match spy_prices with
   | SelFrame df => first_column df
   | SelSeries c => Ok c
   end)%result.

(** The admin command "regime": it replies in the context of the command.
    [exn_str e] is [str(e)], the text of the exception in the error reply. *)
Definition cmd_check_regime (float_repr : num -> string) (exn_str : exn -> string)
  (w : World) : M unit :=
  method
    (try_except
       (spy_data <- fetch_spy_data w 400 ;;
        spy_prices <- lift (adj_close_column spy_data) ;;
        regime <- lift (compute_tmem_regime spy_prices 200) ;;
        let status := if is_risk_on regime then "🟢 RISK-ON" else "🔴 RISK-OFF" in
        let direction := if is_risk_on regime then "above" else "below" in
        ctx_send w
          ("**TMEM Regime Check**" ++ nl
           ++ "Status: " ++ status ++ nl
           ++ "SPY: $" ++ float_repr (spy_price regime)
           ++ " | 200-SMA: $" ++ float_repr (sma_value regime) ++ nl
           ++ "(" ++ format_2f false (abs (pct_diff regime)) ++ "% " ++ direction
           ++ ")"))
       (fun e => ctx_send w ("❌ Error: " ++ exn_str e)))%sys.

End Commands.

(** ** Sample data *)

Section Samples.
Local Open Scope string_scope.

(** [str(x)] for the values [round(x, 2)] yields below 1e16: the digits
    before the point, and one or two after it. *)
Definition repr_2dp (x : num) : string :=
  match x with
  | NaN => "nan"
  | PosInf => "inf"
  | NegInf => "-inf"
  | Fin q =>
      let n := Z.abs (round_half_even (q * 100)) in
      (if negb (Qle_bool 0 q) then "-" else "")
      ++ decimal (n / 100) ++ "."
      ++ (if (n mod 10 =? 0)%Z then decimal (n mod 100 / 10)
          else zero_pad2 (n mod 100))
  end.

(** A SPY table of [n] rows at a constant close, with flat columns. *)
Definition spy_flat (n : nat) (p : num) : yf_data :=
  YfFlat n [("Adj Close", repeat p n); ("Close", repeat p n)].

(** A universe download of 253 rows in which AAA and BBB trade at 10 with
    a daily volume of three million. *)
Definition universe_flat : yf_data :=
  YfMulti 253
    [("Adj Close", [("AAA", repeat (Fin 10) 253); ("BBB", repeat (Fin 10) 253)]);
     ("Volume", [("AAA", repeat (of_Z 3000000) 253);
                 ("BBB", repeat (of_Z 3000000) 253)])].

(** A world in which everything works: 200 days of SPY at 100, the universe
    above, a guild with both signal channels, sends that succeed. *)
Definition healthy (now : datetime) : World :=
  {| w_now := now;
     w_download := fun _ tickers =>
       match tickers with
       | ["SPY"] => Ok (spy_flat 200 (Fin 100))
       | _ => Ok universe_flat
       end;
     w_guild := Some ["general"; "📊-tmem-signals"; "📊-mec-signals"];
     w_send_ok := fun _ _ => true;
     w_reply_ok := fun _ => true |}.

Definition fresh_bot : SignalBot :=
  {| _last_daily_run := None; _last_monthly_run := None |}.

End Samples.


(** ** Vocabulary of the properties *)

(** Picks in order of momentum, ties allowed, and without ties. *)
Definition descending (picks : list Pick) : Prop :=
  Sorted (fun a b => (momentum a >=? momentum b)%num = true) picks.

Definition strictly_descending (picks : list Pick) : Prop :=
  Sorted (fun a b => (momentum a >? momentum b)%num = true) picks.

(** Ranks 1, 2, ..., one per pick. *)
Definition contiguous_ranks (picks : list Pick) : Prop :=
  map rank picks = map (fun i => Z.of_nat i + 1)%Z (seq 0 (List.length picks)).

Definition well_ranked (n_holdings : Z) (picks : list Pick) : Prop :=
  descending picks
  /\ contiguous_ranks picks
  /\ ((0 <= n_holdings)%Z -> (Z.of_nat (List.length picks) <= n_holdings)%Z).

(** The column labels of a frame are distinct, as the tickers of a download
    are.  On a label held twice pandas raises where the rankers look a
    ticker up ([reindex], [float(current_prices.get(...))]), or where the
    product of prices and volume aligns the columns. *)
Definition distinct_labels (df : DataFrame) : Prop := NoDup (index (df_cols df)).

(** No ticker of the table is priced at 5 or more on the last row. *)
Definition no_ticker_priced (prices : DataFrame) : Prop :=
  Forall (fun tc => (cell (snd tc) (df_nrows prices - 1) >=? Fin 5)%num = false)
         (df_cols prices).

(** A penny stock: 253 days at 2 with a daily volume of thirty million. *)
Definition penny_table : DataFrame * DataFrame :=
  flat_table 253 ["CCC"]%string (Fin 2) (of_Z 30000000).

(** Two tickers with the same history: 253 days at 10 with a daily volume of
    three million. *)
Definition tie_table : DataFrame * DataFrame :=
  flat_table 253 ["AAA"; "BBB"]%string (Fin 10) (of_Z 3000000).

(** Sample clock readings: Tuesday 2 January, Wednesday 3 January and
    Saturday 3 February 2024, at 14:30. *)
Definition jan_2 : datetime := mkDatetime 2024 1 2 14 30.
Definition jan_3 : datetime := mkDatetime 2024 1 3 14 30.
Definition feb_3 : datetime := mkDatetime 2024 2 3 14 30.

(** SPY at 90 under an average of 100, and at 110 over it. *)
Definition risk_off : Regime :=
  {| is_risk_on := false; spy_price := Fin 90; sma_value := Fin 100;
     pct_diff := Fin (-10) |}.

Definition risk_on : Regime :=
  {| is_risk_on := true; spy_price := Fin 110; sma_value := Fin 100;
     pct_diff := Fin 10 |}.

(** The parts of the quarterly report: its title with the regime badge, and
    the section it renders for a risk-off regime. *)
Definition tmem_rebalance_title (w : World) (regime : Regime) : string :=
  ("**📊 TMEM Quarterly Rebalance — " ++ strftime_B_Y (w_now w) ++ "**" ++ nl
   ++ rule_line ++ nl ++ nl
   ++ "**Regime: " ++ (if is_risk_on regime then "🟢 RISK-ON" else "🔴 RISK-OFF")
   ++ "**" ++ nl ++ nl)%string.

Definition defensive_section : string :=
  ("SPY is **below** the 200-day SMA." ++ nl
   ++ "**Action:** 100% defensive — hold cash/T-bills (BIL)." ++ nl
   ++ "No equity positions this month." ++ nl ++ nl
   ++ "*Portfolio will re-enter equities when SPY crosses above the 200-SMA.*")%string.







(** What a trace shows: the log record that opens a rebalance, an error
    record, a warning. *)
Definition is_rebalance_start (e : event) : bool :=
  match e with
  | Logged INFO msg => String.eqb msg "Running rebalance..."
  | _ => false
  end.

Definition is_warning (e : event) : bool :=
  match e with
  | Logged WARNING _ => true
  | _ => false
  end.

Definition rebalance_started (tr : list event) : bool := existsb is_rebalance_start tr.


Definition has_error (tr : list event) : bool := existsb is_error tr.
Definition has_warning (tr : list event) : bool := existsb is_warning tr.

(** The keys the two guards compare the markers with. *)
Definition today_key (w : World) : string := strftime_Y_m_d (w_now w).
Definition month_key (w : World) : string := strftime_Y_m (w_now w).

(** An action is local when events already in the trace, downloads apart, do
    not change what it does: it only appends to the trace. *)
Definition local {A} (m : M A) : Prop :=
  forall b pre tr,
    downloads pre = [] ->
    m {| bot := b; trace := pre ++ tr |}
    = (fst (m {| bot := b; trace := tr |}),
       {| bot := bot (snd (m {| bot := b; trace := tr |}));
          trace := pre ++ trace (snd (m {| bot := b; trace := tr |})) |}).

(** The order [sort_values_desc] establishes. *)
Definition score_ge (a b : string * num) : Prop := leb (snd b) (snd a) = true.

Definition no_nan (s : Series num) : Prop :=
  Forall (fun p => isnan (snd p) = false) s.

(** Whether a cycle is due at the clock of [w] for the bot [b]: it is a
    weekday (and, for the rebalance, one of the first three days of the month)
    and the marker is not at the current period. *)
Definition due_daily (w : World) (b : SignalBot) : bool :=
  (weekday (w_now w) <? 5)%Z && negb (opt_eqb (_last_daily_run b) (today_key w)).

Definition due_monthly (w : World) (b : SignalBot) : bool :=
  (day (w_now w) <=? 3)%Z && (weekday (w_now w) <? 5)%Z
  && negb (opt_eqb (_last_monthly_run b) (month_key w)).

Definition count (b : bool) : nat := if b then 1%nat else 0%nat.






(** The state of a monthly cycle on the bot [b] once both downloads are in:
    the trace it has written so far. *)
Definition rebalance_fetched (b : SignalBot) : Sys :=
  {| bot := b;
     trace := [Logged INFO "Running rebalance...";
               Download ["SPY"%string] 400;
               Logged INFO ("Fetching data for "
                            ++ decimal (Z.of_nat (List.length SP500_UNIVERSE))
                            ++ " tickers...")%string;
               Download SP500_UNIVERSE 400] |}.


Definition offline (now : datetime) : World :=
  {| w_now := now;
     w_download := fun _ _ => Err DownloadError;
     w_guild := w_guild (healthy now);
     w_send_ok := fun _ _ => true;
     w_reply_ok := fun _ => true |}.

Definition short_spy (now : datetime) : World :=
  {| w_now := now;
     w_download := fun _ tickers =>
       match tickers with
       | ["SPY"%string] => Ok (spy_flat 199 (Fin 100))
       | _ => Ok universe_flat
       end;
     w_guild := w_guild (healthy now);
     w_send_ok := fun _ _ => true;
     w_reply_ok := fun _ => true |}.

Definition tmem_send_refused (now : datetime) : World :=
  {| w_now := now;
     w_download := w_download (healthy now);
     w_guild := w_guild (healthy now);
     w_send_ok := fun channel _ => negb (String.eqb channel tmem_channel);
     w_reply_ok := fun _ => true |}.

(** A world whose universe download comes back empty. *)
Definition no_universe (now : datetime) : World :=
  {| w_now := now;
     w_download := fun _ tickers =>
       match tickers with
       | ["SPY"%string] => Ok (spy_flat 200 (Fin 100))
       | _ => Ok (YfMulti 0 [])
       end;
     w_guild := w_guild (healthy now);
     w_send_ok := fun _ _ => true;
     w_reply_ok := fun _ => true |}.

(** A bot whose markers are at 2 January 2024. *)
Definition done_bot : SignalBot :=
  {| _last_daily_run := Some "2024-01-02"%string;
     _last_monthly_run := Some "2024-01"%string |}.

(** The last [w] entries of a series, and a price that is a positive
    number. *)
Definition trailing (w : nat) (s : list num) : list num :=
  skipn (List.length s - w) s.

Definition positive (x : num) : Prop := exists q, x = Fin q /\ (0 < q)%Q.

(** The tables both rankers start from: the return from [k] days ago to 21
    days ago, and the 60-day average of the dollar volume. *)
Definition momentum_since (k : nat) (prices : DataFrame) : DataFrame :=
  df_map (fun x => x - Fin 1)%num (df_binop div (shift 21 prices) (shift k prices)).

Definition momentum_12_1 (prices : DataFrame) : DataFrame := momentum_since 252 prices.

Definition dollar_volume_60 (prices volume : DataFrame) : DataFrame :=
  rolling_mean 60 (df_binop mul prices volume).

(** The labels that pass the three filters: a 12-1 momentum that is a
    number, a last price of 5 or more, an average dollar volume of 20
    million or more. *)
Definition eligible_labels (latest_row current_prices adv_60 : Series num)
  : list string :=
  intersection
    (intersection (index (dropna latest_row))
                  (true_index (series_ge current_prices (Fin 5))))
    (true_index (series_ge adv_60 (of_Z 20000000))).

(** The MEC mask: a 6-month or a 3-month momentum above zero. *)
Definition earnings_mask (row_6m row_3m : Series num) (eligible : list string)
  : Series bool :=
  series_or (series_gt (reindex (dropna row_6m) eligible) (Fin 0))
            (series_gt (reindex (dropna row_3m) eligible) (Fin 0)).

(** The first [n] picks of a result. *)
Definition first_picks (n : Z) (r : result (list Pick)) : result (list Pick) :=
  match r with
  | Ok picks => Ok (firstn (Z.to_nat n) picks)
  | Err e => Err e
  end.

(** A trace that writes to the two signal channels only, and replies to no
    command. *)
Definition to_signal_channel (e : event) : bool :=
  match e with
  | Sent channel _ => String.eqb channel tmem_channel || String.eqb channel mec_channel
  | Replied _ => false
  | _ => true
  end.

Definition signal_only (tr : list event) : bool := forallb to_signal_channel tr.

(** Thursday 1 February 2024, at 14:30: a weekday within the grace window
    of a month that opens no quarter. *)
Definition feb_1 : datetime := mkDatetime 2024 2 1 14 30.

(** A ticker that gains one a day from 10 over 253 days, with a daily volume
    of three million. *)
Definition rising_table : DataFrame * DataFrame :=
  ({| df_nrows := 253;
      df_cols := [("UP"%string, map (fun i => of_Z (10 + Z.of_nat i)) (seq 0 253))] |},
   {| df_nrows := 253;
      df_cols := [("UP"%string, repeat (of_Z 3000000) 253)] |}).

(** What both rankers return on [rising_table], and what TMEM returns on
    [tie_table]. *)
Definition rising_picks : list Pick :=
  [{| rank := 1; ticker := "UP"%string; momentum := Fin 2310; price := Fin 262 |}].

Definition tie_picks : list Pick :=
  [{| rank := 1; ticker := "AAA"%string; momentum := Fin 0; price := Fin 10 |};
   {| rank := 2; ticker := "BBB"%string; momentum := Fin 0; price := Fin 10 |}].

(** The regime of a SPY that has stayed at 100. *)
Definition flat_regime : Regime :=
  {| is_risk_on := false; spy_price := Fin 100; sma_value := Fin 100;
     pct_diff := Fin 0 |}.

(** A SPY table without an "Adj Close" column, and a world that serves
    it. *)
Definition spy_close_only : yf_data :=
  YfFlat 200 [("Close"%string, repeat (Fin 100) 200)].

Definition unadjusted (now : datetime) : World :=
  {| w_now := now;
     w_download := fun _ _ => Ok spy_close_only;
     w_guild := w_guild (healthy now);
     w_send_ok := fun _ _ => true;
     w_reply_ok := fun _ => true |}.

(** [str(e)] for the exceptions of the embedding; the library texts are
    abridged. *)
Definition exn_text (e : exn) : string :=
  match e with
  | ValueError_need_days need got =>
      ("Need at least " ++ decimal need ++ " days of SPY data, got "
       ++ decimal (Z.of_nat got))%string
  | ValueError_window => "window must be an integer 0 or greater"%string
  | IndexError => "single positional indexer is out-of-bounds"%string
  | KeyError key => ("'" ++ key ++ "'")%string
  | DownloadError => "download failed"%string
  | DiscordError => "send failed"%string
  end.

(** * Properties *)

(** ** Regime detector *)

Lemma series_rolling_mean_not_insufficient (w : Z) (s : list num) (e : exn) :
  series_rolling_mean w s = Err e -> InsufficientDataError e = false.
Proof.
  unfold series_rolling_mean.
  destruct (w <? 0)%Z; intros H; inversion H; reflexivity.
Qed.

Lemma last_value_not_insufficient (s : list num) (e : exn) :
  last_value s = Err e -> InsufficientDataError e = false.
Proof.
  unfold last_value.
  destruct (List.length s); intros H; inversion H; reflexivity.
Qed.

(** C7.  [compute_tmem_regime] fails with the insufficient-data error (the
    ValueError "Need at least ... days of SPY data") exactly when the series
    has fewer than [sma_lookback] observations: it does on every shorter
    series, and on no series of at least that length. *)
Theorem compute_tmem_regime_insufficient_iff (spy_prices : list num) (sma_lookback : Z) :
  (exists e, compute_tmem_regime spy_prices sma_lookback = Err e
             /\ InsufficientDataError e = true)
  <-> (Z.of_nat (List.length spy_prices) < sma_lookback)%Z.
Proof.
  unfold compute_tmem_regime.
  destruct (Z.ltb_spec (Z.of_nat (List.length spy_prices)) sma_lookback) as [Hlt | Hge].
  - split; [intros _; exact Hlt | intros _].
    eexists; split; reflexivity.
  - split; [ | lia ].
    intros [e [He Hins]]. exfalso.
    destruct (series_rolling_mean sma_lookback spy_prices) as [sma | e1] eqn:E1;
      cbn [result_bind] in He.
    + destruct (last_value spy_prices) as [cp | e2] eqn:E2; cbn [result_bind] in He.
      * destruct (last_value sma) as [cs | e3] eqn:E3; cbn [result_bind] in He.
        -- discriminate He.
        -- inversion He; subst e3.
           apply last_value_not_insufficient in E3. congruence.
      * inversion He; subst e2.
        apply last_value_not_insufficient in E2. congruence.
    + inversion He; subst e1.
      apply series_rolling_mean_not_insufficient in E1. congruence.
Qed.

(** ** Numbers: order and rounding *)

Lemma leb_not_nan (x y : num) : leb x y = true -> isnan x = false /\ isnan y = false.
Proof. destruct x, y; cbn; intros H; try discriminate H; auto. Qed.

Lemma leb_refl (x : num) : isnan x = false -> leb x x = true.
Proof.
  destruct x; cbn; intros H; try discriminate H; auto.
  apply Qle_bool_iff, Qle_refl.
Qed.

Lemma leb_trans (x y z : num) : leb x y = true -> leb y z = true -> leb x z = true.
Proof.
  destruct x, y, z; cbn; intros H1 H2; try discriminate; auto.
  apply Qle_bool_iff in H1, H2. apply Qle_bool_iff.
  eapply Qle_trans; eassumption.
Qed.

(** Among numbers that are not NaN, what is not below is at or above. *)
Lemma ltb_false_leb (x y : num) :
  isnan x = false -> isnan y = false -> ltb x y = false -> leb y x = true.
Proof.
  destruct x, y; cbn; intros Hx Hy H; try discriminate; auto.
  now apply negb_false_iff in H.
Qed.

Lemma ltb_leb (x y : num) : ltb x y = true -> leb x y = true.
Proof.
  destruct x, y; cbn; intros H; try discriminate; auto.
  apply negb_true_iff in H. apply Qle_bool_iff.
  destruct (Qlt_le_dec q q0) as [Hlt | Hle].
  - apply Qlt_le_weak, Hlt.
  - apply Qle_bool_iff in Hle. congruence.
Qed.

Lemma ltb_irrefl (x : num) : ltb x x = false.
Proof.
  destruct x; cbn; auto.
  apply negb_false_iff, Qle_bool_iff, Qle_refl.
Qed.

Lemma round_half_even_bounds (q : Q) :
  (Qfloor q <= round_half_even q <= Qfloor q + 1)%Z.
Proof.
  unfold round_half_even.
  destruct (q - inject_Z (Qfloor q) ?= 1 # 2)%Q; [destruct (Z.even _) | | ]; lia.
Qed.

Lemma round_half_even_mono (x y : Q) :
  (x <= y)%Q -> (round_half_even x <= round_half_even y)%Z.
Proof.
  intros Hxy.
  pose proof (Qfloor_resp_le _ _ Hxy) as Hf.
  pose proof (round_half_even_bounds x) as Bx.
  pose proof (round_half_even_bounds y) as By.
  destruct (Z.eq_dec (Qfloor x) (Qfloor y)) as [Heq | Hne]; [ | lia ].
  clear Bx By Hf. unfold round_half_even. rewrite <- Heq.
  destruct (Qcompare_spec (x - inject_Z (Qfloor x)) (1 # 2)) as [Ex | Ex | Ex];
    destruct (Qcompare_spec (y - inject_Z (Qfloor x)) (1 # 2)) as [Ey | Ey | Ey];
    try (destruct (Z.even (Qfloor x))); try lia; exfalso; lra.
Qed.

Lemma round2_mono (x y : num) : leb x y = true -> leb (round2 x) (round2 y) = true.
Proof.
  destruct x as [ | | a | ], y as [ | | b | ];
    try (cbn; intros H; (discriminate H || reflexivity)).
  unfold round2, leb. intros H.
  apply Qle_bool_iff in H. apply Qle_bool_iff.
  rewrite !Qred_correct.
  apply Qmult_le_compat_r; [ | discriminate ].
  rewrite <- Zle_Qle. apply round_half_even_mono.
  apply Qmult_le_compat_r; [ exact H | discriminate ].
Qed.

Lemma percent_mono (x y : num) :
  leb x y = true -> leb (x * Fin 100)%num (y * Fin 100)%num = true.
Proof.
  destruct x as [ | | a | ], y as [ | | b | ];
    try (cbn; intros H; (discriminate H || reflexivity)).
  unfold mul, leb. intros H.
  apply Qle_bool_iff in H. apply Qle_bool_iff.
  rewrite !Qred_correct.
  apply Qmult_le_compat_r; [ exact H | discriminate ].
Qed.

(** ** Series: lookup, selection, sorting *)

Lemma mem_In (t : string) (l : list string) : mem t l = true <-> In t l.
Proof.
  unfold mem. rewrite existsb_exists. split.
  - intros [x [Hin Heq]]. apply String.eqb_eq in Heq. now subst.
  - intros Hin. exists t. split; [ exact Hin | apply String.eqb_refl ].
Qed.

Lemma intersection_subset (a b : list string) (t : string) :
  In t (intersection a b) -> In t a.
Proof. unfold intersection. intros H. now apply filter_In in H. Qed.

Lemma lookup_In {A} (t : string) (s : Series A) (v : A) :
  lookup t s = Some v -> In (t, v) s.
Proof.
  unfold lookup. destruct (find _ s) as [[t' v'] | ] eqn:E; intros H; inversion H; subst.
  apply find_some in E. destruct E as [Hin Heq].
  apply String.eqb_eq in Heq. cbn in Heq. now subst.
Qed.

Lemma lookup_index {A} (t : string) (s : Series A) :
  In t (index s) -> exists v, lookup t s = Some v.
Proof.
  unfold index, lookup. intros Hin. apply in_map_iff in Hin.
  destruct Hin as [[t' v] [Heq Hin]]. cbn in Heq. subst t'.
  destruct (find _ s) as [p | ] eqn:E; [ now eexists | ].
  exfalso. pose proof (find_none _ _ E _ Hin) as Hn. cbn in Hn.
  now rewrite String.eqb_refl in Hn.
Qed.

(** Selecting labels the Series holds succeeds, and yields entries of the
    Series. *)
Lemma select_total (s : Series num) (idx : list string) :
  (forall t, In t idx -> In t (index s)) ->
  exists r, select s idx = Ok r /\ Forall (fun p => In p s) r.
Proof.
  induction idx as [ | t idx IH]; intros Hsub; cbn.
  - exists []. split; [ reflexivity | constructor ].
  - destruct (lookup_index t s) as [v Hv]; [ apply Hsub; now left | ].
    rewrite Hv.
    destruct IH as [r [Hr Hall]]; [ intros t' Ht'; apply Hsub; now right | ].
    rewrite Hr. exists ((t, v) :: r). split; [ reflexivity | ].
    constructor; [ now apply lookup_In | exact Hall ].
Qed.

Lemma dropna_not_nan (s : Series num) (p : string * num) :
  In p (dropna s) -> isnan (snd p) = false.
Proof.
  unfold dropna. intros H. apply filter_In in H.
  now apply negb_true_iff.
Qed.

Lemma insert_desc_In (p q : string * num) (l : Series num) :
  In q (insert_desc p l) -> q = p \/ In q l.
Proof.
  induction l as [ | a l IH]; cbn.
  - intros [H | []]; auto.
  - destruct (snd p <? snd a)%num; cbn.
    + intros [H | H]; auto. destruct (IH H); auto.
    + intros [H | [H | H]]; auto.
Qed.

Lemma insert_desc_no_nan (p : string * num) (l : Series num) :
  isnan (snd p) = false -> no_nan l -> no_nan (insert_desc p l).
Proof.
  unfold no_nan. intros Hp Hl. apply Forall_forall. intros q Hq.
  apply insert_desc_In in Hq. destruct Hq as [-> | Hq]; [ exact Hp | ].
  now apply (proj1 (Forall_forall _ _) Hl).
Qed.

Lemma insert_desc_sorted (p : string * num) (l : Series num) :
  isnan (snd p) = false -> no_nan l ->
  StronglySorted score_ge l -> StronglySorted score_ge (insert_desc p l).
Proof.
  intros Hp Hn Hs. induction Hs as [ | a l Hs IH Hall]; cbn.
  - repeat constructor.
  - inversion Hn as [ | ? ? Ha Hn']; subst.
    destruct (snd p <? snd a)%num eqn:E.
    + constructor; [ now apply IH | ].
      apply Forall_forall. intros q Hq. apply insert_desc_In in Hq.
      destruct Hq as [-> | Hq].
      * unfold score_ge. now apply ltb_leb.
      * now apply (proj1 (Forall_forall _ _) Hall).
    + assert (Hpa : score_ge p a) by (unfold score_ge; now apply ltb_false_leb).
      constructor; [ now constructor | ].
      constructor; [ exact Hpa | ].
      apply Forall_forall. intros q Hq.
      pose proof (proj1 (Forall_forall _ _) Hall q Hq) as Haq.
      unfold score_ge in *. eapply leb_trans; eassumption.
Qed.

Lemma sort_values_desc_sorted (s : Series num) :
  no_nan s ->
  no_nan (sort_values_desc s) /\ StronglySorted score_ge (sort_values_desc s).
Proof.
  induction 1 as [ | p s Hp Hs [IHn IHs]]; cbn.
  - split; constructor.
  - split; [ now apply insert_desc_no_nan | now apply insert_desc_sorted ].
Qed.

Lemma firstn_In {A} (k : nat) (l : list A) (x : A) : In x (firstn k l) -> In x l.
Proof.
  revert k. induction l as [ | a l IH]; intros [ | k]; cbn; try tauto.
  intros [H | H]; [ now left | right; now apply (IH k) ].
Qed.

Lemma firstn_sorted {A} (R : A -> A -> Prop) (k : nat) (l : list A) :
  StronglySorted R l -> StronglySorted R (firstn k l).
Proof.
  intros Hs. revert k. induction Hs as [ | a l Hs IH Hall]; intros [ | k]; cbn;
    try constructor.
  - apply IH.
  - apply Forall_forall. intros x Hx.
    apply (proj1 (Forall_forall _ _) Hall). revert Hx. apply firstn_In.
Qed.

Lemma head_sorted {A} (R : A -> A -> Prop) (n : Z) (l : list A) :
  StronglySorted R l -> StronglySorted R (head n l).
Proof. unfold head. destruct (0 <=? n)%Z; apply firstn_sorted. Qed.

Lemma head_nil {A} (n : Z) : head n (@nil A) = [].
Proof. unfold head. destruct (0 <=? n)%Z; apply firstn_nil. Qed.

Lemma head_length {A} (n : Z) (l : list A) :
  (0 <= n)%Z -> (Z.of_nat (List.length (head n l)) <= n)%Z.
Proof.
  intros Hn. unfold head. destruct (Z.leb_spec 0 n); [ | lia ].
  rewrite length_firstn. lia.
Qed.

(** ** The list of picks *)

Lemma enumerate_fst {A} (k : Z) (l : list A) :
  map fst (enumerate k l) = map (fun i => Z.of_nat i + k)%Z (seq 0 (List.length l)).
Proof.
  revert k. induction l as [ | a l IH]; intros k; cbn; [ reflexivity | ].
  f_equal. rewrite IH, <- seq_shift, map_map.
  apply map_ext. intros i. lia.
Qed.

Lemma enumerate_snd {A} (k : Z) (l : list A) : map snd (enumerate k l) = l.
Proof. revert k. induction l as [ | a l IH]; intros k; cbn; [ | rewrite IH ]; reflexivity. Qed.

Lemma picks_of_length (top_n cp : Series num) :
  List.length (picks_of top_n cp) = List.length top_n.
Proof.
  unfold picks_of. rewrite length_map, <- (length_map snd), enumerate_snd. reflexivity.
Qed.

Lemma picks_of_ranks (top_n cp : Series num) : contiguous_ranks (picks_of top_n cp).
Proof.
  unfold contiguous_ranks. rewrite picks_of_length.
  unfold picks_of. rewrite map_map. cbn [rank].
  change (map (fun x => fst x) (enumerate 1 top_n)) with (map fst (enumerate 1 top_n)).
  apply enumerate_fst.
Qed.

Lemma picks_of_momentum (top_n cp : Series num) :
  map momentum (picks_of top_n cp)
  = map (fun p => round2 (snd p * Fin 100)%num) top_n.
Proof.
  unfold picks_of. rewrite map_map. cbn [momentum].
  rewrite <- (enumerate_snd 1 top_n) at 2. rewrite map_map. reflexivity.
Qed.

Lemma sorted_map {A B} (f : A -> B) (R : A -> A -> Prop) (R' : B -> B -> Prop)
  (l : list A) :
  (forall a b, R a b -> R' (f a) (f b)) ->
  StronglySorted R l -> StronglySorted R' (map f l).
Proof.
  intros Hf. induction 1 as [ | a l Hs IH Hall]; cbn; constructor; [ exact IH | ].
  apply Forall_forall. intros y Hy. apply in_map_iff in Hy.
  destruct Hy as [x [<- Hx]]. apply Hf.
  now apply (proj1 (Forall_forall _ _) Hall).
Qed.

Lemma sorted_of_map {A B} (f : A -> B) (R' : B -> B -> Prop) (l : list A) :
  StronglySorted R' (map f l) -> StronglySorted (fun a b => R' (f a) (f b)) l.
Proof.
  induction l as [ | a l IH]; cbn; intros H; [ constructor | ].
  inversion H as [ | ? ? Hs Hall]; subst. constructor; [ now apply IH | ].
  apply Forall_forall. intros x Hx.
  apply (proj1 (Forall_forall _ _) Hall). now apply in_map.
Qed.

Lemma picks_of_descending (top_n cp : Series num) :
  StronglySorted score_ge top_n -> descending (picks_of top_n cp).
Proof.
  intros Hs. unfold descending. apply StronglySorted_Sorted.
  apply sorted_of_map with (f := momentum) (R' := fun x y => (x >=? y)%num = true).
  rewrite picks_of_momentum.
  apply sorted_map with (R := score_ge); [ | exact Hs ].
  intros a b Hab. unfold score_ge in Hab. unfold geb.
  now apply round2_mono, percent_mono.
Qed.

(** What both rankers do once the eligible labels are known: select, sort,
    cut, number. *)
Lemma ranked_selection (latest_row cp : Series num) (idx : list string) (n : Z) :
  (forall t, In t idx -> In t (index (dropna latest_row))) ->
  exists sel, select (dropna latest_row) idx = Ok sel
              /\ well_ranked n (picks_of (head n (sort_values_desc sel)) cp).
Proof.
  intros Hsub.
  destruct (select_total (dropna latest_row) idx Hsub) as [sel [Hsel Hin]].
  exists sel. split; [ exact Hsel | ].
  assert (Hnn : no_nan sel).
  { unfold no_nan. apply Forall_forall. intros p Hp.
    apply dropna_not_nan with (s := latest_row).
    now apply (proj1 (Forall_forall _ _) Hin). }
  destruct (sort_values_desc_sorted Hnn) as [_ Hsorted].
  repeat split.
  - apply picks_of_descending, head_sorted, Hsorted.
  - apply picks_of_ranks.
  - intros Hn. rewrite picks_of_length. now apply head_length.
Qed.

Lemma mask_index_subset (idx : list string) (m : Series bool) (t : string) :
  In t (mask_index idx m) -> In t idx.
Proof.
  unfold mask_index. intros H. apply in_map_iff in H.
  destruct H as [[t' b] [Heq H]]. cbn in Heq. subst t'.
  apply filter_In in H. destruct H as [H _].
  eapply in_combine_l. exact H.
Qed.

(** ** pandas frames: the last row *)

Lemma iloc_last_no_row (df : DataFrame) :
  df_nrows df = 0%nat -> iloc_last df = Err IndexError.
Proof. unfold iloc_last. now intros ->. Qed.

Lemma iloc_last_total (df : DataFrame) :
  df_nrows df <> 0%nat ->
  exists row, iloc_last df = Ok row /\ index row = index (df_cols df).
Proof.
  unfold iloc_last. destruct (df_nrows df) as [ | n]; [ congruence | intros _ ].
  eexists. split; [ reflexivity | ].
  unfold index. rewrite map_map. reflexivity.
Qed.

(** ** Momentum rankers *)

Ltac last_row :=
  match goal with
  | |- context [iloc_last ?d] =>
      let row := fresh "row" in
      let Hrow := fresh "Hrow" in
      let Hidx := fresh "Hidx" in
      destruct (@iloc_last_total d) as [row [Hrow Hidx]];
      [ cbn [df_nrows df_map df_binop shift rolling_mean]; lia
      | rewrite Hrow; cbn [result_bind] ]
  end.

Lemma compute_tmem_top_stocks_ranked (prices volume : DataFrame) (n_holdings : Z) :
  df_nrows prices <> 0%nat ->
  exists picks, compute_tmem_top_stocks prices volume n_holdings = Ok picks
                /\ well_ranked n_holdings picks.
Proof.
  intros Hrows. unfold compute_tmem_top_stocks. cbv zeta.
  do 3 last_row.
  match goal with
  | |- context [select (dropna ?r) ?idx] =>
      destruct (@ranked_selection r row0 idx n_holdings) as [sel [Hsel Hwr]]
  end.
  { intros t Ht. now do 2 apply intersection_subset in Ht. }
  rewrite Hsel. cbn [result_bind]. eexists. split; [ reflexivity | exact Hwr ].
Qed.

Lemma compute_mec_top_stocks_ranked (prices volume : DataFrame) (n_holdings : Z) :
  df_nrows prices <> 0%nat ->
  exists picks, compute_mec_top_stocks prices volume n_holdings = Ok picks
                /\ well_ranked n_holdings picks.
Proof.
  intros Hrows. unfold compute_mec_top_stocks. cbv zeta.
  do 5 last_row.
  match goal with
  | |- context [select (dropna ?r) ?idx] =>
      destruct (@ranked_selection r row2 idx n_holdings) as [sel [Hsel Hwr]]
  end.
  { intros t Ht. apply mask_index_subset in Ht.
    now do 2 apply intersection_subset in Ht. }
  rewrite Hsel. cbn [result_bind]. eexists. split; [ reflexivity | exact Hwr ].
Qed.

(** C6, as the code has it.  On every universe table with at least one row
    and distinct column labels, and for every [n_holdings], both rankers
    return a list (never an error) that is in descending order of momentum
    with ties allowed, carries the ranks 1, 2, ... in order, and has at most
    [n_holdings] entries when [n_holdings] is not negative. *)
Theorem rankers_well_ranked (prices volume : DataFrame) (n_holdings : Z) :
  df_nrows prices <> 0%nat ->
  distinct_labels prices ->
  distinct_labels volume ->
  exists tmem_picks mec_picks,
    compute_tmem_top_stocks prices volume n_holdings = Ok tmem_picks
    /\ compute_mec_top_stocks prices volume n_holdings = Ok mec_picks
    /\ well_ranked n_holdings tmem_picks
    /\ well_ranked n_holdings mec_picks.
Proof.
  intros Hrows _ _.
  destruct (@compute_tmem_top_stocks_ranked prices volume n_holdings Hrows) as [tp [Ht Hwt]].
  destruct (@compute_mec_top_stocks_ranked prices volume n_holdings Hrows) as [mp [Hm Hwm]].
  exists tp, mp. auto.
Qed.

Lemma rankers_well_ranked_witness :
  df_nrows (fst tie_table) <> 0%nat
  /\ distinct_labels (fst tie_table)
  /\ distinct_labels (snd tie_table)
  /\ exists tmem_picks mec_picks,
       compute_tmem_top_stocks (fst tie_table) (snd tie_table) 30 = Ok tmem_picks
       /\ compute_mec_top_stocks (fst tie_table) (snd tie_table) 30 = Ok mec_picks
       /\ well_ranked 30 tmem_picks
       /\ well_ranked 30 mec_picks.
Proof.
  assert (H : df_nrows (fst tie_table) <> 0%nat) by (cbn; discriminate).
  assert (Hp : distinct_labels (fst tie_table))
    by (repeat constructor; cbn; intuition discriminate).
  assert (Hv : distinct_labels (snd tie_table))
    by (repeat constructor; cbn; intuition discriminate).
  split; [ exact H | ]. split; [ exact Hp | ]. split; [ exact Hv | ].
  exact (@rankers_well_ranked (fst tie_table) (snd tie_table) 30 H Hp Hv).
Defined.

(** C6, as stated, fails: AAA and BBB have the same history, hence the same
    momentum, and the ranked list holds both with score 0: it is not
    strictly descending. *)
Lemma tied_scores_not_strict :
  exists picks,
    compute_tmem_top_stocks (fst tie_table) (snd tie_table) 30 = Ok picks
    /\ map ticker picks = ["AAA"; "BBB"]%string
    /\ ~ strictly_descending picks.
Proof.
  eexists. split; [ vm_compute; reflexivity | ].
  split; [ reflexivity | ].
  unfold strictly_descending. intros H.
  inversion H as [ | a l Hs Hhd]; subst.
  inversion Hhd as [ | b l' Hgt]; subst.
  vm_compute in Hgt. discriminate Hgt.
Qed.

Lemma intersection_nil_r (a : list string) : intersection a [] = [].
Proof. unfold intersection. induction a as [ | t a IH]; cbn; auto. Qed.

Lemma iloc_last_cells (df : DataFrame) (row : Series num) :
  iloc_last df = Ok row ->
  row = map (fun tc => (fst tc, cell (snd tc) (df_nrows df - 1))) (df_cols df).
Proof.
  unfold iloc_last. destruct (df_nrows df) as [ | n]; intros H; inversion H.
  cbn. now rewrite Nat.sub_0_r.
Qed.

Lemma true_index_none (cols : list (string * list num)) (k : nat) (x : num) :
  Forall (fun tc => (cell (snd tc) k >=? x)%num = false) cols ->
  true_index (series_ge (map (fun tc => (fst tc, cell (snd tc) k)) cols) x) = [].
Proof.
  unfold true_index, series_ge, index.
  induction 1 as [ | tc l Htc Hl IH]; cbn; [ reflexivity | ].
  rewrite Htc. exact IH.
Qed.

Lemma price_filter_empty (prices : DataFrame) (row : Series num) :
  no_ticker_priced prices -> iloc_last prices = Ok row ->
  true_index (series_ge row (Fin 5)) = [].
Proof.
  intros Hno Hrow. apply iloc_last_cells in Hrow. subst row.
  now apply true_index_none.
Qed.

(** ** Report formatters *)





Lemma append_assoc (a b c : string) : ((a ++ b) ++ c = a ++ (b ++ c))%string.
Proof. induction a as [ | x a IH]; cbn; [ | rewrite IH ]; reflexivity. Qed.



(** C5, as the code has it.  Each formatter is a function of its arguments
    and of the date its own clock reading gives, and of nothing else in the
    world: two calls with the same arguments give the same text when the
    clock shows the same year and month and, for the daily signal, the same
    day. *)
Theorem formatters_depend_on_clock_date
  (float_repr : num -> string) (w1 w2 : World) (regime : Regime) (picks : list Pick) :
  year (w_now w1) = year (w_now w2) ->
  month (w_now w1) = month (w_now w2) ->
  (day (w_now w1) = day (w_now w2) ->
   format_tmem_daily_signal float_repr w1 regime
   = format_tmem_daily_signal float_repr w2 regime)
  /\ format_tmem_monthly_picks w1 regime picks
     = format_tmem_monthly_picks w2 regime picks
  /\ format_mec_monthly_picks w1 picks = format_mec_monthly_picks w2 picks.
Proof.
  intros Hy Hm.
  unfold format_tmem_daily_signal, format_tmem_monthly_picks,
    format_mec_monthly_picks, datetime_now, strftime_B_d_Y, strftime_B_Y.
  rewrite Hy, Hm. repeat split.
  intros Hd. rewrite Hd. reflexivity.
Qed.

Lemma formatters_depend_on_clock_date_witness :
  format_tmem_monthly_picks (healthy jan_2) risk_on []
  = format_tmem_monthly_picks (healthy jan_3) risk_on []
  /\ format_mec_monthly_picks (healthy jan_2) []
     = format_mec_monthly_picks (healthy jan_3) [].
Proof.
  exact (proj2 (@formatters_depend_on_clock_date
                  repr_2dp (healthy jan_2) (healthy jan_3) risk_on []
                  eq_refl eq_refl)).
Defined.

(** C5, as stated, fails: the formatters read the system clock.  With the
    same arguments, the daily signal rendered on 2 January differs from the
    one rendered on 3 January, and the monthly reports of January differ
    from those of February. *)
Lemma formatters_read_the_clock :
  format_tmem_daily_signal repr_2dp (healthy jan_2) risk_off
  <> format_tmem_daily_signal repr_2dp (healthy jan_3) risk_off
  /\ format_tmem_monthly_picks (healthy jan_3) risk_off []
     <> format_tmem_monthly_picks (healthy feb_3) risk_off []
  /\ format_mec_monthly_picks (healthy jan_3) []
     <> format_mec_monthly_picks (healthy feb_3) [].
Proof. repeat split; apply String.eqb_neq; vm_compute; reflexivity. Qed.




(** ** Scheduler: one cycle *)

Lemma get_channel_name (w : World) (name ch : string) :
  get_channel w name = Some ch -> ch = name.
Proof.
  unfold get_channel. destruct (w_guild w) as [l | ]; [ | discriminate ].
  intros H. apply find_some in H. destruct H as [_ H].
  apply String.eqb_eq in H. now subst.
Qed.

Ltac unfold_sys :=
  unfold run_all_signals, run_daily_tmem_signal, run_monthly_rebalance,
    tmem_quarterly_rebalance, mec_monthly_rebalance, fetch_universe_data,
    fetch_spy_data, yf_download, channel_send,
    ctx_send, set_last_daily_run, set_last_monthly_run, logger_info,
    logger_warning, logger_error, logger_error_exc, method, try_except, bind,
    lift, ret, raise, return_, emit, get_bot, set_bot, datetime_now;
  cbn [bot trace fst snd _last_daily_run _last_monthly_run
       List.length downloads filter is_download app].

(** Case analysis on the innermost undetermined test of the goal. *)
Ltac split_case :=
  match goal with
  | |- context [match ?x with _ => _ end] =>
      lazymatch x with
      | context [match _ with _ => _ end] => fail
      | _ =>
          let E := fresh "E" in
          destruct x eqn:E;
          try (apply get_channel_name in E; subst);
          cbn [bot trace fst snd _last_daily_run _last_monthly_run
               List.length downloads filter is_download app]
      end
  end.

Ltac run_sys := unfold_sys; repeat split_case.

Lemma run_daily_summary (float_repr : num -> string) (w : World) (s : Sys) :
  exists b' tr,
    run_daily_tmem_signal float_repr w s
    = (Normal tt, {| bot := b'; trace := trace s ++ tr |})
    /\ _last_monthly_run b' = _last_monthly_run (bot s)
    /\ (b' = bot s \/ _last_daily_run b' = Some (today_key w) /\ has_error tr = false)
    /\ rebalance_started tr = false
    /\ sent_to mec_channel tr = []
    /\ (opt_eqb (_last_daily_run (bot s)) (today_key w) = true ->
        b' = bot s /\ sends tr = [] /\ downloads tr = [] /\ has_error tr = false)
    /\ (opt_eqb (_last_daily_run (bot s)) (today_key w) = false ->
        has_error tr = false ->
        _last_daily_run b' = Some (today_key w)
        /\ (has_warning tr = false -> List.length (sent_to tmem_channel tr) = 1%nat)).
Proof.
  destruct s as [b tr0]. unfold today_key. run_sys.
  all: first
    [ do 2 eexists; split; [ rewrite <- ?app_assoc; reflexivity | ]
    | exists b, []; split; [ rewrite app_nil_r; reflexivity | ] ].
  all: cbn; rewrite ?E; repeat split; auto; discriminate.
Qed.

Lemma run_monthly_summary (w : World) (s : Sys) :
  exists b' tr,
    run_monthly_rebalance w s
    = (Normal tt, {| bot := b'; trace := trace s ++ tr |})
    /\ _last_daily_run b' = _last_daily_run (bot s)
    /\ (b' = bot s \/ _last_monthly_run b' = Some (month_key w) /\ has_error tr = false)
    /\ (opt_eqb (_last_monthly_run (bot s)) (month_key w) = true ->
        b' = bot s /\ sends tr = [] /\ downloads tr = [] /\ has_error tr = false)
    /\ ((day (w_now w) >? 3)%Z = true ->
        b' = bot s /\ sends tr = [] /\ downloads tr = [] /\ rebalance_started tr = false)
    /\ (opt_eqb (_last_monthly_run (bot s)) (month_key w) = false ->
        (day (w_now w) >? 3)%Z = false ->
        rebalance_started tr = true
        /\ (has_error tr = false ->
            _last_monthly_run b' = Some (month_key w)
            /\ (has_warning tr = false ->
                List.length (sent_to mec_channel tr) = 1%nat
                /\ List.length (sent_to tmem_channel tr)
                   = if is_tmem_quarter (w_now w) then 1%nat else 0%nat))).
Proof.
  destruct s as [b tr0]. unfold month_key. run_sys.
  all: first
    [ do 2 eexists; split; [ rewrite <- ?app_assoc; reflexivity | ]
    | exists b, []; split; [ rewrite app_nil_r; reflexivity | ] ].
  all: cbn; rewrite ?E, ?E0; repeat split; auto; discriminate.
Qed.

(** ** Scheduler: locality *)

Lemma local_ret {A} (a : A) : local (ret a).
Proof. intros b pre tr _. reflexivity. Qed.

Lemma local_raise {A} (e : exn) : local (@raise A e).
Proof. intros b pre tr _. reflexivity. Qed.

Lemma local_return {A} : local (@return_ A).
Proof. intros b pre tr _. reflexivity. Qed.

Lemma local_lift {A} (r : result A) : local (lift r).
Proof. destruct r; [ apply local_ret | apply local_raise ]. Qed.

Lemma local_emit (e : event) : local (emit e).
Proof. intros b pre tr _. unfold emit. cbn. now rewrite app_assoc. Qed.

Lemma local_get_bot : local get_bot.
Proof. intros b pre tr _. reflexivity. Qed.

Lemma local_set_bot (b' : SignalBot) : local (set_bot b').
Proof. intros b pre tr _. reflexivity. Qed.

Lemma local_bind {A B} (m : M A) (k : A -> M B) :
  local m -> (forall a, local (k a)) -> local (bind m k).
Proof.
  intros Hm Hk b pre tr Hpre. unfold bind. rewrite (Hm b pre tr Hpre).
  destruct (m {| bot := b; trace := tr |}) as [[a | | e] [b1 tr1]]; cbn;
    [ now apply Hk | reflexivity | reflexivity ].
Qed.

Lemma local_try_except (body : M unit) (handler : exn -> M unit) :
  local body -> (forall e, local (handler e)) -> local (try_except body handler).
Proof.
  intros Hm Hk b pre tr Hpre. unfold try_except. rewrite (Hm b pre tr Hpre).
  destruct (body {| bot := b; trace := tr |}) as [[a | | e] [b1 tr1]]; cbn;
    [ reflexivity | reflexivity | now apply Hk ].
Qed.

Lemma local_method (body : M unit) : local body -> local (method body).
Proof.
  intros Hm b pre tr Hpre. unfold method. rewrite (Hm b pre tr Hpre).
  destruct (body {| bot := b; trace := tr |}) as [[a | | e] [b1 tr1]]; reflexivity.
Qed.

Lemma local_yf_download (w : World) (tickers : list string) (lookback_days : Z) :
  local (yf_download w tickers lookback_days).
Proof.
  intros b pre tr Hpre. unfold yf_download. cbn [bot trace].
  unfold downloads in *. rewrite filter_app, Hpre. cbn [app].
  destruct (w_download w _ tickers); cbn; now rewrite app_assoc.
Qed.

Ltac prove_local :=
  repeat
    (intros;
     lazymatch goal with
     | |- local (method ?m) => apply (@local_method m)
     | |- local (try_except ?m ?h) => apply (@local_try_except m h)
     | |- local (bind ?m ?k) => apply (@local_bind _ _ m k)
     | |- local (yf_download _ _ _) => apply local_yf_download
     | |- local (lift _) => apply local_lift
     | |- local (emit _) => apply local_emit
     | |- local get_bot => apply local_get_bot
     | |- local (set_bot _) => apply local_set_bot
     | |- local (ret _) => apply local_ret
     | |- local (raise _) => apply local_raise
     | |- local return_ => apply local_return
     | |- local (match ?x with _ => _ end) => destruct x
     end).

Lemma local_run_all_signals (float_repr : num -> string) (w : World) :
  local (run_all_signals float_repr w).
Proof.
  unfold run_all_signals, run_daily_tmem_signal, run_monthly_rebalance,
    tmem_quarterly_rebalance, mec_monthly_rebalance, fetch_universe_data,
    fetch_spy_data, channel_send, set_last_daily_run,
    set_last_monthly_run, logger_info, logger_warning, logger_error,
    logger_error_exc.
  prove_local.
Qed.

(** ** Scheduler: the tick *)

Lemma has_error_app (a b : list event) : has_error (a ++ b) = has_error a || has_error b.
Proof. apply existsb_app. Qed.

Lemma has_warning_app (a b : list event) :
  has_warning (a ++ b) = has_warning a || has_warning b.
Proof. apply existsb_app. Qed.

Lemma sends_app (a b : list event) : sends (a ++ b) = (sends a ++ sends b)%list.
Proof. apply filter_app. Qed.

Lemma downloads_app (a b : list event) :
  downloads (a ++ b) = (downloads a ++ downloads b)%list.
Proof. apply filter_app. Qed.

Lemma sent_to_app (ch : string) (a b : list event) :
  sent_to ch (a ++ b) = (sent_to ch a ++ sent_to ch b)%list.
Proof. apply flat_map_app. Qed.

Lemma sends_nil_sent_to (ch : string) (tr : list event) :
  sends tr = [] -> sent_to ch tr = [].
Proof.
  induction tr as [ | e tr IH]; [ reflexivity | ].
  unfold sends in *. cbn. destruct e; cbn; try exact IH; discriminate.
Qed.

Lemma opt_eqb_some (s : string) : opt_eqb (Some s) s = true.
Proof. apply String.eqb_refl. Qed.

Lemma run_all_summary (float_repr : num -> string) (w : World) (s : Sys) :
  exists b' tr,
    run_all_signals float_repr w s
    = (Normal tt, {| bot := b'; trace := trace s ++ tr |})
    /\ (_last_daily_run b' = _last_daily_run (bot s)
        \/ _last_daily_run b' = Some (today_key w))
    /\ (_last_monthly_run b' = _last_monthly_run (bot s)
        \/ _last_monthly_run b' = Some (month_key w))
    /\ (due_daily w (bot s) = false -> due_monthly w (bot s) = false ->
        b' = bot s /\ sends tr = [] /\ downloads tr = [])
    /\ (has_error tr = false ->
        due_daily w b' = false /\ due_monthly w b' = false
        /\ (has_warning tr = false ->
            List.length (sent_to tmem_channel tr)
            = (count (due_daily w (bot s))
               + count (due_monthly w (bot s) && is_tmem_quarter (w_now w)))%nat
            /\ List.length (sent_to mec_channel tr) = count (due_monthly w (bot s)))).
Proof.
  destruct s as [b tr0].
  unfold run_all_signals, method, bind, ret, datetime_now, due_daily, due_monthly.
  cbn [bot trace].
  destruct (weekday (w_now w) <? 5)%Z eqn:W; cbn [andb].
  2:{ rewrite !andb_false_r. exists b, []. rewrite app_nil_r. cbn. auto 10. }
  rewrite !andb_true_r.
  destruct (run_daily_summary float_repr w {| bot := b; trace := tr0 |})
    as (b1 & tr1 & H1 & Hm1 & Hd1 & _ & Hmec1 & Hskip1 & Hrun1).
  rewrite H1. cbn [bot trace] in *.
  destruct (day (w_now w) <=? 3)%Z eqn:D; cbn [andb].
  - destruct (run_monthly_summary w {| bot := b1; trace := tr0 ++ tr1 |})
      as (b2 & tr2 & H2 & Hd2 & Hm2 & Hskip2 & _ & Hrun2).
    rewrite H2. cbn [bot trace] in *.
    assert (D' : (day (w_now w) >? 3)%Z = false).
    { rewrite Z.gtb_ltb. apply Z.ltb_ge. now apply Z.leb_le. }
    specialize (Hrun2) . rewrite Hm1 in Hskip2, Hrun2.
    exists b2, (tr1 ++ tr2)%list. rewrite app_assoc.
    split; [ reflexivity | ].
    split; [ rewrite Hd2; destruct Hd1 as [-> | [Hd1 _]]; auto | ].
    split; [ destruct Hm2 as [-> | [Hm2 _]]; auto | ].
    split.
    + intros Hdd Hdm. apply negb_false_iff in Hdd, Hdm.
      destruct (Hskip1 Hdd) as (-> & Hs1 & Hdl1 & _).
      destruct (Hskip2 Hdm) as (-> & Hs2 & Hdl2 & _).
      now rewrite sends_app, downloads_app, Hs1, Hs2, Hdl1, Hdl2.
    + rewrite has_error_app, has_warning_app. intros He.
      apply orb_false_iff in He. destruct He as [He1 He2].
      assert (Hdone1 : opt_eqb (_last_daily_run b2) (today_key w) = true
                       /\ (has_warning tr1 = false ->
                           List.length (sent_to tmem_channel tr1)
                           = count (negb (opt_eqb (_last_daily_run b) (today_key w))))).
      { rewrite Hd2.
        destruct (opt_eqb (_last_daily_run b) (today_key w)) eqn:G.
        - destruct (Hskip1 eq_refl) as (-> & Hs1 & _). split; [ exact G | ].
          intros _. now rewrite (sends_nil_sent_to _ _ Hs1).
        - destruct (Hrun1 eq_refl He1) as [Hset Hcnt]. rewrite Hset.
          split; [ apply opt_eqb_some | exact Hcnt ]. }
      assert (Hdone2 : opt_eqb (_last_monthly_run b2) (month_key w) = true
                       /\ (has_warning tr2 = false ->
                           List.length (sent_to mec_channel tr2)
                           = count (negb (opt_eqb (_last_monthly_run b) (month_key w)))
                           /\ List.length (sent_to tmem_channel tr2)
                              = count (negb (opt_eqb (_last_monthly_run b) (month_key w))
                                       && is_tmem_quarter (w_now w)))).
      { destruct (opt_eqb (_last_monthly_run b) (month_key w)) eqn:G.
        - destruct (Hskip2 eq_refl) as (-> & Hs2 & _). rewrite Hm1.
          split; [ exact G | ].
          intros _. now rewrite !(sends_nil_sent_to _ _ Hs2).
        - destruct (Hrun2 eq_refl D') as [_ Hrun2'].
          destruct (Hrun2' He2) as [Hset Hcnt]. rewrite Hset.
          split; [ apply opt_eqb_some | ].
          intros Hw. destruct (Hcnt Hw) as [-> ->]. cbn.
          now destruct (is_tmem_quarter (w_now w)). }
      destruct Hdone1 as [-> Hc1]. destruct Hdone2 as [-> Hc2].
      split; [ reflexivity | ]. split; [ reflexivity | ].
      intros Hw. apply orb_false_iff in Hw. destruct Hw as [Hw1 Hw2].
      rewrite !sent_to_app, !length_app, Hmec1.
      destruct (Hc2 Hw2) as [-> ->]. rewrite (Hc1 Hw1). split; reflexivity.
  - exists b1, tr1. split; [ reflexivity | ].
    split; [ destruct Hd1 as [-> | [Hd1 _]]; auto | ].
    split; [ now left | ].
    split.
    + intros Hdd _. apply negb_false_iff in Hdd.
      destruct (Hskip1 Hdd) as (-> & Hs1 & Hdl1 & _). auto.
    + intros He1. rewrite Hmec1.
      destruct (opt_eqb (_last_daily_run b) (today_key w)) eqn:G.
      * destruct (Hskip1 eq_refl) as (-> & Hs1 & _). rewrite G. cbn.
        rewrite (sends_nil_sent_to _ _ Hs1). auto.
      * destruct (Hrun1 eq_refl He1) as [Hset Hcnt]. rewrite Hset, opt_eqb_some.
        cbn. repeat split; auto.
Qed.



(** C1, as the code has it.  The admin command runs the same guarded tick as
    the schedule: once its first reply is out, it leaves the bot object as a
    tick would, sends what a tick would send and downloads what a tick would
    download; when no cycle is due it sends nothing and changes nothing.
    It never resets a marker: afterwards each marker is the one before, or
    the current day or month. *)
Theorem force_run_is_a_guarded_tick (float_repr : num -> string) (w : World) (b : SignalBot) :
  w_reply_ok w "⚙️ Running signals manually..." = true ->
  let forced := call (cmd_force_signals float_repr w true) b in
  let tick := call (run_all_signals float_repr w) b in
  bot_after forced = bot_after tick
  /\ sends (trace_of forced) = sends (trace_of tick)
  /\ downloads (trace_of forced) = downloads (trace_of tick)
  /\ (due_daily w b = false -> due_monthly w b = false ->
      bot_after forced = b /\ sends (trace_of forced) = [])
  /\ (_last_daily_run (bot_after forced) = _last_daily_run b
      \/ _last_daily_run (bot_after forced) = Some (today_key w))
  /\ (_last_monthly_run (bot_after forced) = _last_monthly_run b
      \/ _last_monthly_run (bot_after forced) = Some (month_key w)).
Proof.
  intros Hreply. unfold call, bot_after, trace_of.
  destruct (run_all_summary float_repr w {| bot := b; trace := [] |})
    as (b1 & tr1 & H1 & Hd & Hm & Hskip & _).
  cbn [bot trace app] in *.
  assert (Hforced :
    exists tail,
      snd (cmd_force_signals float_repr w true {| bot := b; trace := [] |})
      = {| bot := b1;
           trace := [Replied "⚙️ Running signals manually..."] ++ tr1 ++ tail |}
      /\ sends tail = [] /\ downloads tail = []).
  { unfold cmd_force_signals, method, bind, ctx_send. rewrite Hreply.
    unfold emit at 1. cbn [bot trace app].
    pose proof (@local_run_all_signals float_repr w b
                  [Replied "⚙️ Running signals manually..."] [] eq_refl) as Hloc.
    cbn [app] in Hloc. rewrite Hloc, H1. cbn [fst snd bot trace].
    destruct (w_reply_ok w "✅ Signals posted!").
    - exists [Replied "✅ Signals posted!"]. cbn. auto.
    - exists []. cbn. rewrite app_nil_r. auto. }
  destruct Hforced as (tail & -> & Hst & Hdt).
  rewrite H1. cbn [snd bot trace].
  rewrite !sends_app, !downloads_app, Hst, Hdt, !app_nil_r. cbn [sends downloads filter is_sent is_download app].
  repeat split; auto; now destruct Hskip as (? & ? & ?).
Qed.

(** ** Scheduler: the grace window *)

Lemma rebalance_started_app (a b : list event) :
  rebalance_started (a ++ b) = rebalance_started a || rebalance_started b.
Proof. apply existsb_app. Qed.

(** C8, as the code has it.  With no rebalance recorded for the month, a tick
    after day 3 does not start the rebalance; a tick on day 3 starts it
    exactly when day 3 is a weekday (Monday to Friday). *)
Theorem monthly_grace_window (float_repr : num -> string) (w : World) (b : SignalBot) :
  opt_eqb (_last_monthly_run b) (month_key w) = false ->
  ((3 < day (w_now w))%Z ->
   rebalance_started (trace_of (call (run_all_signals float_repr w) b)) = false)
  /\ (day (w_now w) = 3%Z ->
      rebalance_started (trace_of (call (run_all_signals float_repr w) b))
      = (weekday (w_now w) <? 5)%Z).
Proof.
  intros Hpending. unfold call, trace_of.
  unfold run_all_signals, method, bind, ret, datetime_now.
  destruct (weekday (w_now w) <? 5)%Z eqn:W.
  - destruct (run_daily_summary float_repr w {| bot := b; trace := [] |})
      as (b1 & tr1 & H1 & Hm1 & _ & Hs1 & _).
    rewrite H1. cbn [app trace bot andb].
    destruct (day (w_now w) <=? 3)%Z eqn:D; cbn [andb].
    + destruct (run_monthly_summary w {| bot := b1; trace := tr1 |})
        as (b2 & tr2 & H2 & _ & _ & _ & _ & Hgo).
      rewrite H2. cbn [snd trace].
      apply Z.leb_le in D.
      split; [ lia | intros _ ].
      destruct Hgo as [Hst _].
      * cbn [bot]. now rewrite Hm1.
      * rewrite Z.gtb_ltb. apply Z.ltb_ge. lia.
      * now rewrite rebalance_started_app, Hst, orb_true_r.
    + cbn [snd trace]. apply Z.leb_gt in D.
      split; [ intros _; exact Hs1 | lia ].
  - rewrite andb_false_r. cbn. split; reflexivity.
Qed.

(** ** Scheduler: failures *)

Open Scope string_scope.

(** ** Rankers: degenerate tables *)

(** C4, as the code has it.  On a table with no row both rankers raise
    IndexError (at the first [.iloc[-1]]).  On a table with rows and distinct
    column labels in which no ticker passes the price filter, and so on a
    table with rows and no ticker column, both return the empty list.  The
    rebalance never ranks a table with no row: when the universe download
    gives one, it logs "Failed to fetch universe data" and ends there, with
    nothing sent and the bot object as it was. *)
Theorem rankers_on_degenerate_table (prices volume : DataFrame) (n_holdings : Z) :
  (df_nrows prices = 0%nat ->
   compute_tmem_top_stocks prices volume n_holdings = Err IndexError
   /\ compute_mec_top_stocks prices volume n_holdings = Err IndexError)
  /\ (df_nrows prices <> 0%nat ->
      distinct_labels prices -> distinct_labels volume ->
      no_ticker_priced prices ->
      compute_tmem_top_stocks prices volume n_holdings = Ok []
      /\ compute_mec_top_stocks prices volume n_holdings = Ok [])
  /\ (df_nrows prices = 0%nat ->
      forall (w : World) (b : SignalBot) (spy_data data : yf_data),
        opt_eqb (_last_monthly_run b) (month_key w) = false ->
        (day (w_now w) >? 3)%Z = false ->
        w_download w 0 ["SPY"] = Ok spy_data ->
        w_download w 1 SP500_UNIVERSE = Ok data ->
        split_download SP500_UNIVERSE data = Ok (prices, volume) ->
        call (run_monthly_rebalance w) b
        = (Normal tt,
           {| bot := b;
              trace := trace (rebalance_fetched b)
                       ++ [Logged ERROR "Failed to fetch universe data"] |})).
Proof.
  split; [ | split ].
  - intros H0. split.
    + unfold compute_tmem_top_stocks. cbv zeta.
      rewrite iloc_last_no_row; [ reflexivity | ].
      cbn [df_nrows df_map df_binop shift]. lia.
    + unfold compute_mec_top_stocks. cbv zeta.
      rewrite iloc_last_no_row; [ reflexivity | ].
      cbn [df_nrows df_map df_binop shift]. lia.
  - intros Hrows _ _ Hno.
    unfold compute_tmem_top_stocks, compute_mec_top_stocks. cbv zeta. split.
    + do 3 last_row.
      rewrite (@price_filter_empty prices row0 Hno Hrow0), intersection_nil_r.
      cbn. now rewrite head_nil.
    + do 5 last_row.
      rewrite (@price_filter_empty prices row2 Hno Hrow2), intersection_nil_r.
      cbn. now rewrite head_nil.
  - intros H0 w b spy_data data Hpending Hday Hspy Huni Hsplit.
    unfold call, month_key in *. unfold_sys.
    rewrite Hpending, Hday.
    cbn [bot trace List.length downloads filter is_download app].
    rewrite Hspy. cbn [bot trace List.length downloads filter is_download app].
    rewrite Huni. cbn [bot trace]. rewrite Hsplit. cbn [fst snd].
    unfold df_empty. rewrite H0. cbn [Nat.eqb orb]. reflexivity.
Qed.

Lemma rankers_on_degenerate_table_witness :
  (compute_tmem_top_stocks empty_frame empty_frame 30 = Err IndexError
   /\ compute_mec_top_stocks empty_frame empty_frame 30 = Err IndexError)
  /\ (compute_tmem_top_stocks (fst penny_table) (snd penny_table) 30 = Ok []
      /\ compute_mec_top_stocks (fst penny_table) (snd penny_table) 30 = Ok [])
  /\ call (run_monthly_rebalance (no_universe jan_2)) fresh_bot
     = (Normal tt,
        {| bot := fresh_bot;
           trace := trace (rebalance_fetched fresh_bot)
                    ++ [Logged ERROR "Failed to fetch universe data"] |}).
Proof.
  split; [ | split ].
  - exact (proj1 (@rankers_on_degenerate_table empty_frame empty_frame 30) eq_refl).
  - apply (proj1 (proj2 (@rankers_on_degenerate_table
                           (fst penny_table) (snd penny_table) 30))).
    + cbn. discriminate.
    + repeat constructor. intros [].
    + repeat constructor. intros [].
    + repeat constructor.
  - apply (proj2 (proj2 (@rankers_on_degenerate_table empty_frame empty_frame 30))
                 eq_refl (no_universe jan_2) fresh_bot
                 (spy_flat 200 (Fin 100)) (YfMulti 0 []));
      reflexivity.
Defined.

(** C4, as stated, fails: on the empty table (the one [fetch_universe_data]
    returns when the download is empty) the rankers do not return an empty
    list, they raise. *)
Lemma rankers_raise_on_empty_table :
  compute_tmem_top_stocks empty_frame empty_frame 30 <> Ok []
  /\ compute_mec_top_stocks empty_frame empty_frame 40 <> Ok [].
Proof. split; vm_compute; discriminate. Qed.

(** ** Scheduler: a failing cycle *)




Lemma tmem_block_raises_quietly (w : World) (spy_prices : list num)
  (prices volume : DataFrame) (s : Sys) (e : exn) :
  fst (tmem_quarterly_rebalance w spy_prices prices volume s) = Raised e ->
  tmem_quarterly_rebalance w spy_prices prices volume s = (Raised e, s).
Proof.
  destruct s as [b tr]. run_sys; cbn [fst]; intros H; try discriminate H;
    inversion H; reflexivity.
Qed.

(** C10.  In a quarter-start month, when the rebalance is due, both
    downloads succeed and a step of the TMEM branch raises [e] (the regime
    on a short SPY series, the send), the whole call is: the trace up to the
    downloads, then the error record.  Nothing of MEC is in it, no message
    reaches the MEC channel, and the bot object is unchanged. *)
Theorem tmem_failure_skips_mec (w : World) (b : SignalBot)
  (spy_data data : yf_data) (spy_prices : list num) (prices volume : DataFrame)
  (e : exn) :
  is_tmem_quarter (w_now w) = true ->
  opt_eqb (_last_monthly_run b) (month_key w) = false ->
  (day (w_now w) >? 3)%Z = false ->
  w_download w 0 ["SPY"] = Ok spy_data ->
  w_download w 1 SP500_UNIVERSE = Ok data ->
  split_download SP500_UNIVERSE data = Ok (prices, volume) ->
  df_empty prices = false ->
  adj_close_series spy_data = Ok spy_prices ->
  fst (tmem_quarterly_rebalance w spy_prices prices volume (rebalance_fetched b))
  = Raised e ->
  call (run_monthly_rebalance w) b
  = (Normal tt,
     {| bot := b;
        trace := trace (rebalance_fetched b) ++ [LoggedExc "Rebalance failed" e] |})
  /\ bot_after (call (run_monthly_rebalance w) b) = b
  /\ sent_to mec_channel (trace_of (call (run_monthly_rebalance w) b)) = [].
Proof.
  intros Hq Hpending Hday Hspy Huni Hsplit Hne Hadj Hraise.
  apply tmem_block_raises_quietly in Hraise.
  assert (Hcall :
    call (run_monthly_rebalance w) b
    = (Normal tt,
       {| bot := b;
          trace := trace (rebalance_fetched b) ++ [LoggedExc "Rebalance failed" e] |})).
  { unfold call, run_monthly_rebalance, fetch_spy_data, fetch_universe_data,
      yf_download, logger_info, logger_error_exc.
    unfold method, try_except, bind, emit, get_bot, datetime_now.
    unfold month_key in Hpending.
    cbn [bot trace List.length downloads filter is_download app].
    rewrite Hpending, Hday.
    cbn [bot trace List.length downloads filter is_download app].
    rewrite Hspy. cbn [lift ret bot trace List.length downloads filter is_download app].
    rewrite Huni. cbn [lift ret bot trace]. rewrite Hsplit.
    cbn [lift ret fst snd]. rewrite Hne, Hadj. cbn [lift ret]. rewrite Hq.
    unfold rebalance_fetched in Hraise. rewrite Hraise. reflexivity. }
  rewrite Hcall. split; [ reflexivity | ]. split; [ reflexivity | ].
  unfold trace_of. cbn. reflexivity.
Qed.

Lemma tmem_failure_skips_mec_witness :
  bot_after (call (run_monthly_rebalance (short_spy jan_2)) fresh_bot) = fresh_bot
  /\ sent_to mec_channel
       (trace_of (call (run_monthly_rebalance (short_spy jan_2)) fresh_bot)) = [].
Proof.
  refine (proj2 (@tmem_failure_skips_mec (short_spy jan_2) fresh_bot
                   (spy_flat 199 (Fin 100)) universe_flat
                   (repeat (Fin 100) 199) (fst tie_table) (snd tie_table)
                   (ValueError_need_days 200 199)
                   eq_refl eq_refl eq_refl eq_refl eq_refl _ eq_refl _ _));
    vm_compute; reflexivity.
Defined.

(** The other way into the handler: the regime is fine and the send of the
    quarterly report raises.  The monthly report is not sent either. *)
Example tmem_send_refused_skips_mec :
  bot_after (call (run_monthly_rebalance (tmem_send_refused jan_2)) fresh_bot)
  = fresh_bot
  /\ sends (trace_of (call (run_monthly_rebalance (tmem_send_refused jan_2)) fresh_bot))
     = []
  /\ has_error (trace_of (call (run_monthly_rebalance (tmem_send_refused jan_2)) fresh_bot))
     = true.
Proof. vm_compute. repeat split. Qed.







(** ** Witnesses and counterexamples of the scheduler claims *)



Lemma force_run_is_a_guarded_tick_witness :
  bot_after (call (cmd_force_signals repr_2dp (healthy jan_2) true) fresh_bot)
  = bot_after (call (run_all_signals repr_2dp (healthy jan_2)) fresh_bot).
Proof.
  exact (proj1 (@force_run_is_a_guarded_tick repr_2dp (healthy jan_2) fresh_bot eq_refl)).
Defined.

(** C1, as stated, fails: the force-run does not go past the guards.  In a
    world where everything works, a force-run on a fresh bot publishes three
    reports; on a bot whose markers are at the current day and month it
    publishes nothing, and answers "Signals posted!" all the same.  On a
    Saturday it publishes nothing even on a fresh bot. *)
Lemma force_run_respects_guards :
  List.length (sends (trace_of (call (cmd_force_signals repr_2dp (healthy jan_2) true) fresh_bot)))
  = 3%nat
  /\ trace_of (call (cmd_force_signals repr_2dp (healthy jan_2) true) done_bot)
     = [Replied "⚙️ Running signals manually...";
        Logged INFO "Daily TMEM signal already posted today, skipping.";
        Logged INFO "Rebalance already posted this month, skipping.";
        Replied "✅ Signals posted!"]
  /\ bot_after (call (cmd_force_signals repr_2dp (healthy jan_2) true) done_bot)
     = done_bot
  /\ trace_of (call (cmd_force_signals repr_2dp (healthy feb_3) true) fresh_bot)
     = [Replied "⚙️ Running signals manually..."; Replied "✅ Signals posted!"].
Proof. vm_compute. repeat split. Qed.

Lemma monthly_grace_window_witness :
  rebalance_started (trace_of (call (run_all_signals repr_2dp (healthy jan_3)) fresh_bot))
  = true.
Proof.
  exact (proj2 (@monthly_grace_window repr_2dp (healthy jan_3) fresh_bot eq_refl) eq_refl).
Defined.

(** C8, as stated, fails: 3 February 2024 is a Saturday, and the tick of that
    day, on a bot with no rebalance recorded, does nothing at all. *)
Lemma day_three_on_a_saturday :
  day feb_3 = 3%Z
  /\ weekday feb_3 = 5%Z
  /\ call (run_all_signals repr_2dp (healthy feb_3)) fresh_bot
     = (Normal tt, {| bot := fresh_bot; trace := [] |})
  /\ rebalance_started (trace_of (call (run_all_signals repr_2dp (healthy feb_3)) fresh_bot))
     = false.
Proof. vm_compute. repeat split. Qed.



(** * Further properties *)

(** ** Regime detector: the moving average *)

Lemma cells_from (l : list num) (k : nat) :
  map (cell l) (seq k (List.length l - k)) = skipn k l.
Proof.
  revert k. induction l as [ | a l IH]; intros k.
  - cbn. now destruct k.
  - destruct k as [ | k].
    + cbn [List.length Nat.sub skipn]. cbn [seq map]. f_equal.
      rewrite <- seq_shift, map_map.
      specialize (IH 0%nat). rewrite Nat.sub_0_r in IH. cbn [skipn] in IH.
      exact IH.
    + cbn [List.length Nat.sub skipn]. rewrite <- (IH k).
      rewrite <- seq_shift, map_map. reflexivity.
Qed.

Lemma cell_of_map (f : nat -> num) (n i : nat) :
  (i < n)%nat -> cell (map f (seq 0 n)) i = f i.
Proof.
  intros Hi. unfold cell.
  rewrite (nth_indep _ NaN (f 0%nat)) by (now rewrite length_map, length_seq).
  rewrite map_nth, seq_nth by exact Hi. reflexivity.
Qed.

Lemma cell_last (l : list num) : cell l (List.length l - 1) = last l NaN.
Proof.
  unfold cell. induction l as [ | a l IH]; [ reflexivity | ].
  destruct l as [ | b l]; [ reflexivity | ].
  cbn [List.length Nat.sub] in *. rewrite Nat.sub_0_r in *.
  cbn [nth last]. exact IH.
Qed.

Lemma rolling_mean_col_length (w n : nat) (c : list num) :
  List.length (rolling_mean_col w n c) = n.
Proof. unfold rolling_mean_col. now rewrite length_map, length_seq. Qed.

(** [s.iloc[-1]] of a series and of its rolling mean. *)
Lemma last_value_last (s : list num) : s <> [] -> last_value s = Ok (last s NaN).
Proof.
  intros Hne. unfold last_value.
  destruct (List.length s) as [ | n] eqn:En.
  { destruct s; [ congruence | discriminate En ]. }
  rewrite <- cell_last, En. do 2 f_equal. lia.
Qed.

Lemma last_value_rolling_mean (w : nat) (s : list num) :
  s <> [] -> (w <= List.length s)%nat ->
  last_value (rolling_mean_col w (List.length s) s)
  = Ok (mean (map finite_or_nan (trailing w s))).
Proof.
  intros Hne Hw. unfold last_value. rewrite rolling_mean_col_length.
  destruct (List.length s) as [ | n] eqn:En.
  { destruct s; [ congruence | discriminate En ]. }
  f_equal. unfold rolling_mean_col. rewrite cell_of_map by lia.
  destruct (Nat.ltb_spec (n + 1) w); [ lia | ].
  f_equal. unfold window, trailing. rewrite En.
  replace (n + 1 - w)%nat with (S n - w)%nat by lia.
  rewrite <- (cells_from s), En, map_map. f_equal. f_equal. lia.
Qed.

Lemma finite_positive (l : list num) :
  Forall positive l -> map finite_or_nan l = l.
Proof.
  induction 1 as [ | x l [q [-> _]] _ IH]; cbn; [ reflexivity | now rewrite IH ].
Qed.

(** The two reads of [compute_tmem_regime], on a series long enough. *)
Ltac read_regime :=
  unfold compute_tmem_regime, series_rolling_mean;
  match goal with
  | |- context [(Z.of_nat (List.length ?s) <? ?w)%Z] =>
      let Hlong := fresh "Hlong" in
      let Hwin := fresh "Hwin" in
      destruct (Z.ltb_spec (Z.of_nat (List.length s)) w) as [Hlong | Hlong]; [ lia | ];
      destruct (Z.ltb_spec w 0) as [Hwin | Hwin]; [ lia | ];
      cbn [result_bind];
      rewrite (@last_value_last s), (@last_value_rolling_mean (Z.to_nat w) s)
        by (auto; lia);
      cbn [result_bind]
  end.

(** ** Regime detector: positive prices *)

Lemma sum_from_positive (l : list num) (a : Q) :
  Forall positive l ->
  exists s, fold_left add l (Fin a) = Fin s /\ (a <= s)%Q /\ (l <> [] -> (a < s)%Q).
Proof.
  intros Hl. revert a. induction Hl as [ | x l [q [-> Hq]] Hl IH]; intros a.
  - exists a. repeat split; [ apply Qle_refl | congruence ].
  - cbn [fold_left add]. destruct (IH (Qred (a + q))) as (s & Hs & Hle & _).
    exists s. split; [ exact Hs | ].
    rewrite Qred_correct in Hle. split; [ lra | intros _; lra ].
Qed.

Lemma mean_positive (l : list num) :
  Forall positive l -> l <> [] -> positive (mean l).
Proof.
  intros Hl Hne. unfold mean, sum.
  destruct (@sum_from_positive l 0 Hl) as (s & -> & _ & Hpos).
  specialize (Hpos Hne). unfold of_Z, div.
  assert (Hk : (0 < inject_Z (Z.of_nat (List.length l)))%Q).
  { rewrite <- (Zlt_Qlt 0). destruct l; [ congruence | cbn; lia ]. }
  destruct (Qeq_bool (inject_Z (Z.of_nat (List.length l))) 0) eqn:E.
  { apply Qeq_bool_iff in E. lra. }
  eexists. split; [ reflexivity | ].
  rewrite Qred_correct. apply Qlt_shift_div_l; [ exact Hk | lra ].
Qed.

Lemma trailing_positive (w : nat) (l : list num) :
  Forall positive l -> Forall positive (trailing w l).
Proof.
  intros H. unfold trailing. apply Forall_forall. intros x Hx.
  apply (proj1 (Forall_forall _ _) H).
  rewrite <- (firstn_skipn (List.length l - w) l). apply in_or_app. now right.
Qed.

Lemma trailing_nonempty (w : nat) (l : list num) :
  (0 < w <= List.length l)%nat -> trailing w l <> [].
Proof.
  intros Hw H. apply (f_equal (@List.length num)) in H.
  unfold trailing in H. rewrite length_skipn in H. cbn in H. lia.
Qed.

Lemma last_positive (l : list num) :
  Forall positive l -> l <> [] -> positive (last l NaN).
Proof.
  intros H Hne. apply (proj1 (Forall_forall _ _) H).
  destruct (exists_last Hne) as (l' & a & ->).
  rewrite last_last. apply in_or_app. right. now left.
Qed.

(** The percentage of a positive price over a positive average has the
    sign of their comparison. *)
Lemma pct_sign (p m : Q) :
  (0 < p)%Q -> (0 < m)%Q ->
  if (Fin p >? Fin m)%num
  then leb (Fin 0) (round2 ((Fin p / Fin m - Fin 1) * Fin 100)%num) = true
  else leb (round2 ((Fin p / Fin m - Fin 1) * Fin 100)%num) (Fin 0) = true.
Proof.
  intros Hp Hm.
  assert (E : Qeq_bool m 0 = false).
  { destruct (Qeq_bool m 0) eqn:E; [ apply Qeq_bool_iff in E; lra | reflexivity ]. }
  assert (Hdiv : (p / m - 1 == (p - m) / m)%Q) by (field; lra).
  change (Fin 0) with (round2 (Fin 0)).
  unfold gtb, ltb. destruct (Qle_bool p m) eqn:Hle; cbn [negb].
  - apply Qle_bool_iff in Hle. apply round2_mono.
    unfold div, sub, neg, add, mul, leb. rewrite E. apply Qle_bool_iff.
    rewrite !Qred_correct.
    assert (H0 : ((p - m) / m <= 0)%Q).
    { apply Qle_shift_div_r; [ exact Hm | lra ]. }
    change (-(1))%Q with (-1)%Q. lra.
  - assert (Hgt : (m < p)%Q).
    { destruct (Qlt_le_dec m p) as [H | H]; [ exact H | ].
      apply Qle_bool_iff in H. congruence. }
    apply round2_mono.
    unfold div, sub, neg, add, mul, leb. rewrite E. apply Qle_bool_iff.
    rewrite !Qred_correct.
    assert (H0 : (0 <= (p - m) / m)%Q).
    { apply Qle_shift_div_l; [ exact Hm | lra ]. }
    lra.
Qed.

(** X2.  On a series of positive prices with at least [sma_lookback] of
    them, and a positive [sma_lookback], the flag and the percentage of the
    regime never contradict each other: under risk-on the percentage is not
    negative, under risk-off it is not positive.  The messages print the
    absolute value of the percentage next to "above" or "below", chosen by
    the flag. *)
Theorem regime_sign_agrees (spy_prices : list num) (sma_lookback : Z) :
  Forall positive spy_prices ->
  (0 < sma_lookback <= Z.of_nat (List.length spy_prices))%Z ->
  exists regime,
    compute_tmem_regime spy_prices sma_lookback = Ok regime
    /\ (if is_risk_on regime
        then leb (Fin 0) (pct_diff regime)
        else leb (pct_diff regime) (Fin 0)) = true.
Proof.
  intros Hpos Hw.
  assert (Hne : spy_prices <> []).
  { intros ->. cbn in Hw. lia. }
  read_regime.
  rewrite (finite_positive (trailing_positive (Z.to_nat sma_lookback) Hpos)).
  eexists. split; [ reflexivity | ]. cbn [is_risk_on pct_diff].
  destruct (@last_positive spy_prices Hpos Hne) as (p & -> & Hp).
  destruct (@mean_positive (trailing (Z.to_nat sma_lookback) spy_prices))
    as (m & -> & Hm).
  - now apply trailing_positive.
  - apply trailing_nonempty. lia.
  - pose proof (@pct_sign p m Hp Hm) as H.
    destruct (Fin p >? Fin m)%num; exact H.
Qed.

Lemma regime_sign_agrees_witness :
  exists regime,
    compute_tmem_regime [Fin 30; Fin 20; Fin 10] 2 = Ok regime
    /\ (if is_risk_on regime
        then leb (Fin 0) (pct_diff regime)
        else leb (pct_diff regime) (Fin 0)) = true.
Proof.
  apply (@regime_sign_agrees [Fin 30; Fin 20; Fin 10] 2).
  - repeat constructor; eexists; (split; [ reflexivity | reflexivity ]).
  - cbn. lia.
Defined.

(** ** Momentum rankers: less than a year of history *)

Lemma cell_repeat_nan (n i : nat) : cell (repeat NaN n) i = NaN.
Proof.
  unfold cell. revert i. induction n as [ | n IH]; intros [ | i]; cbn; auto.
Qed.

Lemma cell_minus_one (c : list num) (i : nat) :
  cell c i = NaN -> cell (map (fun x => x - Fin 1)%num c) i = NaN.
Proof.
  unfold cell. intros H.
  change NaN with ((fun x => x - Fin 1)%num NaN) at 1.
  rewrite map_nth, H. reflexivity.
Qed.

Lemma shifted_cell_nan (k : nat) (p : DataFrame) (tc : string * list num) (i : nat) :
  (i < df_nrows p <= k)%nat -> In tc (df_cols (shift k p)) -> cell (snd tc) i = NaN.
Proof.
  intros Hi Hin. cbn [shift df_cols] in Hin. apply in_map_iff in Hin.
  destruct Hin as (tc' & <- & _). cbn [snd]. unfold shift_col.
  rewrite cell_of_map by lia.
  destruct (Nat.ltb_spec i k); [ reflexivity | lia ].
Qed.

(** The row [i] of [a / b - 1] is NaN throughout when the row [i] of [b]
    is. *)
Lemma ratio_row_nan (a b : DataFrame) (i : nat) :
  df_nrows a = df_nrows b -> (i < df_nrows b)%nat ->
  (forall tc, In tc (df_cols b) -> cell (snd tc) i = NaN) ->
  forall tc,
    In tc (df_cols (df_map (fun x => x - Fin 1)%num (df_binop div a b))) ->
    cell (snd tc) i = NaN.
Proof.
  intros Hn Hi Hb tc Hin. cbn [df_map df_cols df_binop] in Hin.
  rewrite Hn, Nat.max_id in Hin.
  apply in_map_iff in Hin. destruct Hin as (tc' & <- & Hin). cbn [snd].
  apply cell_minus_one. apply in_app_or in Hin. destruct Hin as [Hin | Hin].
  - apply in_map_iff in Hin. destruct Hin as (ta & <- & _). cbn [snd].
    destruct (lookup (fst ta) (df_cols b)) as [cb | ] eqn:E.
    + unfold binop_col. rewrite cell_of_map by exact Hi.
      apply lookup_In in E. pose proof (Hb _ E) as Hcb. cbn [snd] in Hcb.
      rewrite Hcb. destruct (cell (snd ta) i); reflexivity.
    + apply cell_repeat_nan.
  - apply in_map_iff in Hin. destruct Hin as (tb & <- & _). cbn [snd].
    apply cell_repeat_nan.
Qed.

Lemma last_row_cells (df : DataFrame) (row : Series num) :
  iloc_last df = Ok row ->
  row = map (fun tc => (fst tc, cell (snd tc) (df_nrows df - 1))) (df_cols df).
Proof.
  unfold iloc_last. destruct (df_nrows df) as [ | n]; intros H; inversion H.
  cbn. now rewrite Nat.sub_0_r.
Qed.

Lemma dropna_all_nan (df : DataFrame) (row : Series num) :
  iloc_last df = Ok row ->
  (forall tc, In tc (df_cols df) -> cell (snd tc) (df_nrows df - 1) = NaN) ->
  dropna row = [].
Proof.
  intros Hrow Hnan. apply last_row_cells in Hrow. subst row.
  unfold dropna. induction (df_cols df) as [ | tc l IH]; [ reflexivity | ].
  cbn [map filter snd]. rewrite (Hnan tc) by now left. cbn [isnan negb].
  apply IH. intros tc' H. apply Hnan. now right.
Qed.

Lemma short_history_no_momentum (prices : DataFrame) (row : Series num) :
  (df_nrows prices <= 252)%nat ->
  iloc_last (df_map (fun x => x - Fin 1)%num
               (df_binop div (shift 21 prices) (shift 252 prices))) = Ok row ->
  dropna row = [].
Proof.
  intros Hshort Hrow.
  assert (Hpos : df_nrows prices <> 0%nat).
  { intros H0. rewrite iloc_last_no_row in Hrow; [ discriminate | ].
    cbn [df_nrows df_map df_binop shift]. lia. }
  apply (@dropna_all_nan _ row Hrow).
  cbn [df_nrows df_map df_binop shift]. rewrite Nat.max_id.
  apply ratio_row_nan; cbn [df_nrows shift]; [ reflexivity | lia | ].
  intros tc Hin. apply (@shifted_cell_nan 252 prices tc); [ lia | exact Hin ].
Qed.

(** X3.  With 252 rows of history or fewer, and at least one, and distinct
    column labels, both rankers return the empty list whatever the prices and
    volumes: the price of
    twelve months ago lies 252 rows back, so the 12-1 momentum of the last
    row is NaN for every ticker.  The first ranking comes with row 253. *)
Theorem rankers_need_a_year_of_history (prices volume : DataFrame) (n_holdings : Z) :
  (0 < df_nrows prices <= 252)%nat ->
  distinct_labels prices ->
  distinct_labels volume ->
  compute_tmem_top_stocks prices volume n_holdings = Ok []
  /\ compute_mec_top_stocks prices volume n_holdings = Ok [].
Proof.
  intros [Hpos Hshort] _ _.
  unfold compute_tmem_top_stocks, compute_mec_top_stocks. cbv zeta. split.
  - do 3 last_row.
    rewrite (@short_history_no_momentum prices row Hshort Hrow).
    cbn. now rewrite head_nil.
  - do 5 last_row.
    rewrite (@short_history_no_momentum prices row Hshort Hrow).
    cbn. now rewrite head_nil.
Qed.

Lemma rankers_need_a_year_of_history_witness :
  compute_tmem_top_stocks
    (fst (flat_table 252 ["AAA"] (Fin 10) (of_Z 3000000)))
    (snd (flat_table 252 ["AAA"] (Fin 10) (of_Z 3000000))) 30 = Ok []
  /\ compute_mec_top_stocks
       (fst (flat_table 252 ["AAA"] (Fin 10) (of_Z 3000000)))
       (snd (flat_table 252 ["AAA"] (Fin 10) (of_Z 3000000))) 40 = Ok [].
Proof.
  split.
  - apply (@rankers_need_a_year_of_history
             (fst (flat_table 252 ["AAA"] (Fin 10) (of_Z 3000000)))
             (snd (flat_table 252 ["AAA"] (Fin 10) (of_Z 3000000))) 30).
    + cbn. lia.
    + repeat constructor. intros [].
    + repeat constructor. intros [].
  - apply (@rankers_need_a_year_of_history
             (fst (flat_table 252 ["AAA"] (Fin 10) (of_Z 3000000)))
             (snd (flat_table 252 ["AAA"] (Fin 10) (of_Z 3000000))) 40).
    + cbn. lia.
    + repeat constructor. intros [].
    + repeat constructor. intros [].
Defined.

(** ** Momentum rankers: where the picks come from *)

Lemma tmem_origin (prices volume : DataFrame) (n : Z) (picks : list Pick) :
  compute_tmem_top_stocks prices volume n = Ok picks ->
  exists row cp adv sel,
    iloc_last (momentum_12_1 prices) = Ok row
    /\ iloc_last prices = Ok cp
    /\ iloc_last (dollar_volume_60 prices volume) = Ok adv
    /\ select (dropna row) (eligible_labels row cp adv) = Ok sel
    /\ picks = picks_of (head n (sort_values_desc sel)) cp.
Proof.
  unfold compute_tmem_top_stocks, momentum_12_1, momentum_since, dollar_volume_60,
    eligible_labels.
  cbv zeta.
  destruct (iloc_last (df_map _ (df_binop div (shift 21 prices) (shift 252 prices))))
    as [row | ]; cbn [result_bind]; [ | discriminate ].
  destruct (iloc_last prices) as [cp | ]; cbn [result_bind]; [ | discriminate ].
  destruct (iloc_last (rolling_mean 60 (df_binop mul prices volume))) as [adv | ];
    cbn [result_bind]; [ | discriminate ].
  match goal with
  | |- context [select (dropna row) ?i] =>
      destruct (select (dropna row) i) as [sel | ] eqn:Hsel;
      cbn [result_bind]; [ | discriminate ]
  end.
  intros H. inversion H. exists row, cp, adv, sel. auto.
Qed.

Lemma mec_origin (prices volume : DataFrame) (n : Z) (picks : list Pick) :
  compute_mec_top_stocks prices volume n = Ok picks ->
  exists row row_6m row_3m cp adv sel,
    iloc_last (momentum_12_1 prices) = Ok row
    /\ iloc_last (momentum_since 126 prices) = Ok row_6m
    /\ iloc_last (momentum_since 63 prices) = Ok row_3m
    /\ iloc_last prices = Ok cp
    /\ iloc_last (dollar_volume_60 prices volume) = Ok adv
    /\ select (dropna row)
              (mask_index (eligible_labels row cp adv)
                          (earnings_mask row_6m row_3m (eligible_labels row cp adv)))
       = Ok sel
    /\ picks = picks_of (head n (sort_values_desc sel)) cp.
Proof.
  unfold compute_mec_top_stocks, momentum_12_1, momentum_since, dollar_volume_60,
    eligible_labels, earnings_mask.
  cbv zeta.
  destruct (iloc_last (df_map _ (df_binop div (shift 21 prices) (shift 252 prices))))
    as [row | ]; cbn [result_bind]; [ | discriminate ].
  destruct (iloc_last (df_map _ (df_binop div (shift 21 prices) (shift 126 prices))))
    as [row_6m | ]; cbn [result_bind]; [ | discriminate ].
  destruct (iloc_last (df_map _ (df_binop div (shift 21 prices) (shift 63 prices))))
    as [row_3m | ]; cbn [result_bind]; [ | discriminate ].
  destruct (iloc_last prices) as [cp | ]; cbn [result_bind]; [ | discriminate ].
  destruct (iloc_last (rolling_mean 60 (df_binop mul prices volume))) as [adv | ];
    cbn [result_bind]; [ | discriminate ].
  match goal with
  | |- context [select (dropna row) ?i] =>
      destruct (select (dropna row) i) as [sel | ] eqn:Hsel;
      cbn [result_bind]; [ | discriminate ]
  end.
  intros H. inversion H. exists row, row_6m, row_3m, cp, adv, sel.
  repeat split; auto.
Qed.

Lemma select_labels (s : Series num) (idx : list string) (r : Series num) :
  select s idx = Ok r -> index r = idx /\ Forall (fun p => In p s) r.
Proof.
  revert r. induction idx as [ | t idx IH]; cbn; intros r H.
  - inversion H. split; [ reflexivity | constructor ].
  - destruct (lookup t s) as [v | ] eqn:Hv; [ | discriminate ].
    destruct (select s idx) as [r' | ]; [ | discriminate ].
    inversion H; subst. destruct (IH r' eq_refl) as [Hi Hall].
    split; [ cbn; f_equal; exact Hi | ].
    constructor; [ now apply lookup_In | exact Hall ].
Qed.

Lemma insert_desc_perm (p : string * num) (l : Series num) :
  Permutation (insert_desc p l) (p :: l).
Proof.
  induction l as [ | q l IH]; cbn; [ reflexivity | ].
  destruct (snd p <? snd q)%num; [ | reflexivity ].
  rewrite IH. apply perm_swap.
Qed.

Lemma sort_values_desc_perm (s : Series num) : Permutation (sort_values_desc s) s.
Proof.
  induction s as [ | p s IH]; cbn; [ reflexivity | ].
  rewrite insert_desc_perm. now constructor.
Qed.

Lemma NoDup_firstn {A} (k : nat) (l : list A) : NoDup l -> NoDup (firstn k l).
Proof.
  intros H. revert k. induction H as [ | a l Hn H IH]; intros [ | k]; cbn;
    try constructor.
  - intros Hin. apply Hn. eapply firstn_In. exact Hin.
  - apply IH.
Qed.

Lemma head_In {A} (n : Z) (l : list A) (x : A) : In x (head n l) -> In x l.
Proof. unfold head. destruct (0 <=? n)%Z; apply firstn_In. Qed.

Lemma head_all {A} (n : Z) (l : list A) :
  (Z.of_nat (List.length l) <= n)%Z -> head n l = l.
Proof.
  intros H. unfold head. destruct (Z.leb_spec 0 n); [ | lia ].
  apply firstn_all2. lia.
Qed.

Lemma picks_of_tickers (top cp : Series num) :
  map ticker (picks_of top cp) = index top.
Proof.
  unfold picks_of, index. rewrite map_map. cbn [ticker].
  rewrite <- (enumerate_snd 1 top) at 2. rewrite map_map. reflexivity.
Qed.

Lemma picks_of_In (top cp : Series num) (pk : Pick) :
  In pk (picks_of top cp) ->
  exists v, In (ticker pk, v) top
            /\ momentum pk = round2 (v * Fin 100)%num
            /\ price pk = round2 (get cp (ticker pk) (Fin 0)).
Proof.
  unfold picks_of. intros H. apply in_map_iff in H.
  destruct H as ([r [t v]] & <- & Hin). cbn.
  exists v. repeat split.
  apply (in_map snd) in Hin. now rewrite enumerate_snd in Hin.
Qed.

Lemma index_map_fst {A B} (f : string * A -> B) (l : list (string * A)) :
  index (map (fun tc => (fst tc, f tc)) l) = index l.
Proof. unfold index. rewrite map_map. reflexivity. Qed.

Lemma index_shift (k : nat) (p : DataFrame) :
  index (df_cols (shift k p)) = index (df_cols p).
Proof. cbn [shift df_cols]. apply index_map_fst. Qed.

Lemma momentum_labels (k : nat) (prices : DataFrame) :
  index (df_cols (momentum_since k prices)) = index (df_cols prices).
Proof.
  unfold momentum_since. cbn [df_map df_cols df_binop].
  rewrite index_map_fst. unfold index at 1. rewrite map_app.
  fold (index (df_cols prices)).
  match goal with
  | |- (_ ++ map fst (map _ ?l))%list = _ => assert (Hnil : l = [])
  end.
  { rewrite index_shift.
    assert (Hall : forall tc, In tc (df_cols (shift k prices)) ->
                              In (fst tc) (index (df_cols prices))).
    { intros tc H. rewrite <- (index_shift k). unfold index. now apply in_map. }
    induction (df_cols (shift k prices)) as [ | tc l IH]; [ reflexivity | ].
    cbn [filter]. rewrite (proj2 (mem_In _ _) (Hall tc (or_introl eq_refl))).
    cbn [negb]. apply IH. intros tc' H. apply Hall. now right. }
  rewrite Hnil. cbn [map]. rewrite app_nil_r.
  change (map fst ?l) with (index l).
  rewrite index_map_fst. apply index_shift.
Qed.

Lemma iloc_last_index (df : DataFrame) (row : Series num) :
  iloc_last df = Ok row -> index row = index (df_cols df).
Proof.
  unfold iloc_last. destruct (df_nrows df); intros H; inversion H.
  apply index_map_fst.
Qed.

Lemma NoDup_index_filter {A} (f : string * A -> bool) (l : list (string * A)) :
  NoDup (index l) -> NoDup (index (filter f l)).
Proof.
  unfold index. induction l as [ | p l IH]; cbn; intros H; [ constructor | ].
  inversion H as [ | ? ? Hn Hl]; subst.
  destruct (f p); [ | now apply IH ].
  cbn. constructor; [ | now apply IH ].
  intros Hin. apply Hn. apply in_map_iff in Hin.
  destruct Hin as (q & Hq & Hin). apply filter_In in Hin.
  rewrite <- Hq. apply in_map. tauto.
Qed.

Lemma mask_index_NoDup (idx : list string) (m : Series bool) :
  NoDup idx -> NoDup (mask_index idx m).
Proof.
  unfold mask_index. revert m.
  induction idx as [ | t idx IH]; intros m H; [ constructor | ].
  destruct m as [ | b m]; [ constructor | ].
  inversion H as [ | ? ? Hn Hl]; subst. cbn [combine filter].
  destruct (snd (snd (t, b))); [ | now apply IH ].
  cbn [map fst]. constructor; [ | now apply IH ].
  intros Hin. apply Hn. now apply (@mask_index_subset idx m t).
Qed.

Lemma eligible_NoDup (row cp adv : Series num) :
  NoDup (index row) -> NoDup (eligible_labels row cp adv).
Proof.
  intros H. unfold eligible_labels, intersection.
  do 2 apply NoDup_filter. unfold dropna. now apply NoDup_index_filter.
Qed.

Lemma NoDup_lookup {A} (t : string) (v : A) (s : Series A) :
  NoDup (index s) -> In (t, v) s -> lookup t s = Some v.
Proof.
  unfold index, lookup. induction s as [ | [t' v'] s IH]; cbn; intros Hnd Hin;
    [ tauto | ].
  inversion Hnd as [ | ? ? Hn Hs]; subst.
  destruct (String.eqb_spec t' t) as [-> | Hne].
  - destruct Hin as [Heq | Hin]; [ now inversion Heq | ].
    exfalso. apply Hn. change t with (fst (t, v)). now apply in_map.
  - destruct Hin as [Heq | Hin]; [ inversion Heq; congruence | ].
    now apply IH.
Qed.

Lemma true_index_ge (s : Series num) (x : num) (t : string) :
  In t (true_index (series_ge s x)) ->
  exists v, In (t, v) s /\ (v >=? x)%num = true.
Proof.
  unfold true_index, series_ge, index. intros H.
  apply in_map_iff in H. destruct H as ([t' b] & Ht & H). cbn in Ht. subst t'.
  apply filter_In in H. destruct H as [H Hb]. cbn in Hb. subst b.
  apply in_map_iff in H. destruct H as ([t' v] & Heq & H). cbn in Heq.
  inversion Heq. subst. exists v. auto.
Qed.

Lemma intersection_In (a b : list string) (t : string) :
  In t (intersection a b) -> In t a /\ In t b.
Proof.
  unfold intersection. intros H. apply filter_In in H.
  destruct H as [Ha Hb]. split; [ exact Ha | now apply mem_In ].
Qed.

Lemma percent_not_nan (v : num) :
  isnan v = false -> isnan (round2 (v * Fin 100)%num) = false.
Proof. destruct v; cbn; intros H; (discriminate H || reflexivity). Qed.

Lemma index_head {A} (n : Z) (s : Series A) : index (head n s) = head n (index s).
Proof.
  unfold index, head. rewrite length_map.
  destruct (0 <=? n)%Z; symmetry; apply firstn_map.
Qed.

(** What the two rankers share: the picks are rows of the momentum table,
    selected at labels that passed the three filters. *)
Lemma ranker_origin (prices volume : DataFrame) (n : Z) (picks : list Pick) :
  compute_tmem_top_stocks prices volume n = Ok picks
  \/ compute_mec_top_stocks prices volume n = Ok picks ->
  exists row cp adv idx sel,
    iloc_last (momentum_12_1 prices) = Ok row
    /\ iloc_last prices = Ok cp
    /\ iloc_last (dollar_volume_60 prices volume) = Ok adv
    /\ (forall t, In t idx -> In t (eligible_labels row cp adv))
    /\ (NoDup (index row) -> NoDup idx)
    /\ select (dropna row) idx = Ok sel
    /\ picks = picks_of (head n (sort_values_desc sel)) cp.
Proof.
  intros [H | H].
  - destruct (@tmem_origin _ _ _ _ H) as (row & cp & adv & sel & ? & ? & ? & ? & ?).
    exists row, cp, adv, (eligible_labels row cp adv), sel.
    repeat split; auto. apply eligible_NoDup.
  - destruct (@mec_origin _ _ _ _ H)
      as (row & row_6m & row_3m & cp & adv & sel & ? & _ & _ & ? & ? & ? & ?).
    exists row, cp, adv,
      (mask_index (eligible_labels row cp adv)
                  (earnings_mask row_6m row_3m (eligible_labels row cp adv))), sel.
    repeat split; auto.
    + intros t. apply mask_index_subset.
    + intros Hnd. now apply mask_index_NoDup, eligible_NoDup.
Qed.

(** X4.  On a table whose column labels are distinct, every pick of either
    ranker has passed the three filters: its ticker is a column of the
    price table, its price (the last price, rounded) is 5 or more, its
    momentum is a number, and its 60-day average dollar volume on the last
    row is 20 million or more. *)
Theorem picks_pass_the_filters (prices volume : DataFrame) (n_holdings : Z)
  (picks : list Pick) :
  NoDup (index (df_cols prices)) ->
  compute_tmem_top_stocks prices volume n_holdings = Ok picks
  \/ compute_mec_top_stocks prices volume n_holdings = Ok picks ->
  Forall (fun pick =>
            In (ticker pick) (index (df_cols prices))
            /\ (price pick >=? Fin 5)%num = true
            /\ isnan (momentum pick) = false
            /\ exists adv_60 a,
                 iloc_last (rolling_mean 60 (df_binop mul prices volume)) = Ok adv_60
                 /\ In (ticker pick, a) adv_60
                 /\ (a >=? of_Z 20000000)%num = true)
         picks.
Proof.
  intros Hnd H.
  destruct (@ranker_origin _ _ _ _ H)
    as (row & cp & adv & idx & sel & Hrow & Hcp & Hadv & Hidx & _ & Hsel & ->).
  destruct (@select_labels _ _ _ Hsel) as [Hlab Hall].
  apply Forall_forall. intros pk Hpk.
  destruct (@picks_of_In _ _ _ Hpk) as (v & Hv & Hmom & Hprice).
  apply head_In in Hv.
  apply (@Permutation_in _ _ _ _ (sort_values_desc_perm sel)) in Hv.
  assert (Hel : In (ticker pk) (eligible_labels row cp adv)).
  { apply Hidx. rewrite <- Hlab. unfold index.
    change (ticker pk) with (fst (ticker pk, v)). now apply in_map. }
  unfold eligible_labels in Hel.
  apply intersection_In in Hel. destruct Hel as [Hel Hadvf].
  apply intersection_In in Hel. destruct Hel as [Hlatest Hpricef].
  repeat split.
  - rewrite <- (momentum_labels 252). fold (momentum_12_1 prices).
    rewrite <- (@iloc_last_index _ _ Hrow).
    unfold index, dropna in *. apply in_map_iff in Hlatest.
    destruct Hlatest as (q & <- & Hq). apply filter_In in Hq.
    apply in_map. tauto.
  - apply true_index_ge in Hpricef. destruct Hpricef as (v' & Hin & Hge).
    rewrite Hprice. unfold get.
    rewrite (@NoDup_lookup _ (ticker pk) v' cp); [ | | exact Hin ].
    + unfold geb in *. change (Fin 5) with (round2 (Fin 5)).
      now apply round2_mono.
    + now rewrite (@iloc_last_index _ _ Hcp).
  - rewrite Hmom. apply percent_not_nan.
    apply (@dropna_not_nan row (ticker pk, v)).
    now apply (proj1 (Forall_forall _ _) Hall).
  - apply true_index_ge in Hadvf. destruct Hadvf as (a & Hin & Hge).
    exists adv, a. auto.
Qed.

Lemma picks_pass_the_filters_witness :
  Forall (fun pick =>
            In (ticker pick) (index (df_cols (fst rising_table)))
            /\ (price pick >=? Fin 5)%num = true
            /\ isnan (momentum pick) = false
            /\ exists adv_60 a,
                 iloc_last (rolling_mean 60 (df_binop mul (fst rising_table)
                                                          (snd rising_table)))
                 = Ok adv_60
                 /\ In (ticker pick, a) adv_60
                 /\ (a >=? of_Z 20000000)%num = true)
         rising_picks.
Proof.
  apply (@picks_pass_the_filters (fst rising_table) (snd rising_table) 30 rising_picks).
  - repeat constructor. intros [].
  - left. vm_compute. reflexivity.
Defined.

(** X5.  On a table whose column labels are distinct, no ticker is picked
    twice by either ranker. *)
Theorem picks_are_distinct (prices volume : DataFrame) (n_holdings : Z)
  (picks : list Pick) :
  NoDup (index (df_cols prices)) ->
  compute_tmem_top_stocks prices volume n_holdings = Ok picks
  \/ compute_mec_top_stocks prices volume n_holdings = Ok picks ->
  NoDup (map ticker picks).
Proof.
  intros Hnd H.
  destruct (@ranker_origin _ _ _ _ H)
    as (row & cp & adv & idx & sel & Hrow & _ & _ & _ & Hndi & Hsel & ->).
  destruct (@select_labels _ _ _ Hsel) as [Hlab _].
  rewrite picks_of_tickers, index_head. unfold head.
  destruct (0 <=? n_holdings)%Z; apply NoDup_firstn;
    (apply (Permutation_NoDup
              (Permutation_sym (Permutation_map fst (sort_values_desc_perm sel))));
     fold (index sel); rewrite Hlab; apply Hndi;
     rewrite (@iloc_last_index _ _ Hrow); unfold momentum_12_1;
     rewrite momentum_labels; exact Hnd).
Qed.

Lemma picks_are_distinct_witness : NoDup (map ticker tie_picks).
Proof.
  apply (@picks_are_distinct (fst tie_table) (snd tie_table) 30 tie_picks).
  - repeat constructor; cbn; intuition discriminate.
  - left. vm_compute. reflexivity.
Defined.

Lemma intersection_length (a b : list string) :
  (List.length (intersection a b) <= List.length a)%nat.
Proof. unfold intersection. apply filter_length_le. Qed.

(** X6.  MEC ranks a sub-universe of TMEM: every ticker MEC picks, for any
    [n_holdings], is among the TMEM picks of the same tables once TMEM's
    [n_holdings] is not below the number of columns. *)
Theorem mec_picks_are_tmem_eligible (prices volume : DataFrame) (n m : Z)
  (mec_picks tmem_picks : list Pick) :
  compute_mec_top_stocks prices volume n = Ok mec_picks ->
  compute_tmem_top_stocks prices volume m = Ok tmem_picks ->
  (Z.of_nat (List.length (df_cols prices)) <= m)%Z ->
  incl (map ticker mec_picks) (map ticker tmem_picks).
Proof.
  intros Hm Ht Hbig.
  destruct (@tmem_origin _ _ _ _ Ht) as (row & cp & adv & sel & Hrow & Hcp & Hadv & Hsel & ->).
  destruct (@mec_origin _ _ _ _ Hm)
    as (row' & row_6m & row_3m & cp' & adv' & sel'
        & Hrow' & _ & _ & Hcp' & Hadv' & Hsel' & ->).
  assert (row' = row) by congruence. assert (cp' = cp) by congruence.
  assert (adv' = adv) by congruence. subst row' cp' adv'.
  destruct (@select_labels _ _ _ Hsel) as [Hlab _].
  destruct (@select_labels _ _ _ Hsel') as [Hlab' _].
  rewrite !picks_of_tickers. intros t Hin.
  rewrite index_head in Hin. apply head_In in Hin.
  apply (@Permutation_in _ _ _ _ (Permutation_map fst (sort_values_desc_perm sel'))) in Hin.
  fold (index sel') in Hin. rewrite Hlab' in Hin. apply mask_index_subset in Hin.
  rewrite head_all.
  - apply (@Permutation_in _ _ _ _ (Permutation_sym
                               (Permutation_map fst (sort_values_desc_perm sel)))).
    fold (index sel). now rewrite Hlab.
  - rewrite (Permutation_length (sort_values_desc_perm sel)).
    rewrite <- (length_map fst sel). fold (index sel). rewrite Hlab.
    unfold eligible_labels.
    pose proof (intersection_length
                  (intersection (index (dropna row))
                                (true_index (series_ge cp (Fin 5))))
                  (true_index (series_ge adv (of_Z 20000000)))) as L1.
    pose proof (intersection_length (index (dropna row))
                                    (true_index (series_ge cp (Fin 5)))) as L2.
    assert (L3 : (List.length (index (dropna row)) <= List.length (df_cols prices))%nat).
    { unfold index, dropna. rewrite length_map.
      etransitivity; [ apply filter_length_le | ].
      rewrite <- (length_map fst row). fold (index row).
      rewrite (@iloc_last_index _ _ Hrow). unfold momentum_12_1.
      rewrite momentum_labels.
      unfold index. now rewrite length_map. }
    lia.
Qed.

Lemma mec_picks_are_tmem_eligible_witness :
  incl (map ticker rising_picks) (map ticker rising_picks).
Proof.
  apply (@mec_picks_are_tmem_eligible (fst rising_table) (snd rising_table) 40 30
           rising_picks rising_picks).
  - vm_compute. reflexivity.
  - vm_compute. reflexivity.
  - cbn. lia.
Defined.

(** ** Momentum rankers: the earnings proxy of MEC *)

Lemma reindex_gt (s : Series num) (t : string) :
  ((match lookup t s with Some v => v | None => NaN end) >? Fin 0)%num = true ->
  exists v, lookup t s = Some v /\ (v >? Fin 0)%num = true.
Proof.
  destruct (lookup t s) as [v | ]; [ intros H; exists v; auto | ].
  intros H. discriminate H.
Qed.

Lemma earnings_mask_In (a b : Series num) (idx : list string) (t : string) :
  In t (mask_index idx
          (series_or (series_gt (reindex a idx) (Fin 0))
                     (series_gt (reindex b idx) (Fin 0)))) ->
  exists v, (lookup t a = Some v \/ lookup t b = Some v) /\ (v >? Fin 0)%num = true.
Proof.
  unfold mask_index, series_or, series_gt, reindex.
  assert (G : forall pre,
             In t (map fst
                     (filter (fun tb : string * (string * bool) => snd (snd tb))
                        (combine pre
                           (map (fun ab : (string * bool) * (string * bool) =>
                                   (fst (fst ab), snd (fst ab) || snd (snd ab)))
                              (combine
                                 (map (fun p : string * num => (fst p, (snd p >? Fin 0)%num))
                                    (map (fun t => (t, match lookup t a with
                                                       | Some v => v | None => NaN end))
                                         pre))
                                 (map (fun p : string * num => (fst p, (snd p >? Fin 0)%num))
                                    (map (fun t => (t, match lookup t b with
                                                       | Some v => v | None => NaN end))
                                         pre))))))) ->
             exists v, (lookup t a = Some v \/ lookup t b = Some v)
                       /\ (v >? Fin 0)%num = true).
  { induction pre as [ | u pre IH]; cbn [map combine filter fst snd]; [ intros [] | ].
    destruct ((match lookup u a with Some v => v | None => NaN end >? Fin 0)%num
              || (match lookup u b with Some v => v | None => NaN end >? Fin 0)%num)
      eqn:E; [ | exact IH ].
    cbn [map fst In]. intros [<- | Hin]; [ | now apply IH ].
    apply orb_true_iff in E. destruct E as [E | E]; apply reindex_gt in E;
      destruct E as (v & Hv & Hgt); exists v; auto. }
  apply G.
Qed.

(** X7.  Every MEC pick is confirmed by the earnings proxy: the last row
    of the 6-month or of the 3-month momentum table holds, at its ticker, a
    number above zero.  A ticker whose two momenta are NaN, zero or negative
    is never picked, however high its 12-1 momentum. *)
Theorem mec_picks_are_confirmed (prices volume : DataFrame) (n_holdings : Z)
  (picks : list Pick) :
  compute_mec_top_stocks prices volume n_holdings = Ok picks ->
  exists row_6m row_3m,
    iloc_last (momentum_since 126 prices) = Ok row_6m
    /\ iloc_last (momentum_since 63 prices) = Ok row_3m
    /\ Forall (fun pick =>
                 exists v,
                   (In (ticker pick, v) row_6m \/ In (ticker pick, v) row_3m)
                   /\ (v >? Fin 0)%num = true)
              picks.
Proof.
  intros H.
  destruct (@mec_origin _ _ _ _ H)
    as (row & row_6m & row_3m & cp & adv & sel & _ & H6 & H3 & _ & _ & Hsel & ->).
  exists row_6m, row_3m. split; [ exact H6 | ]. split; [ exact H3 | ].
  destruct (@select_labels _ _ _ Hsel) as [Hlab _].
  apply Forall_forall. intros pk Hpk.
  assert (Hin : In (ticker pk) (index sel)).
  { apply (in_map ticker) in Hpk. rewrite picks_of_tickers, index_head in Hpk.
    apply head_In in Hpk.
    apply (@Permutation_in _ _ _ _ (Permutation_map fst (sort_values_desc_perm sel)))
      in Hpk.
    exact Hpk. }
  rewrite Hlab in Hin. unfold earnings_mask in Hin.
  apply earnings_mask_In in Hin. destruct Hin as (v & Hv & Hgt).
  exists v. split; [ | exact Hgt ].
  destruct Hv as [Hv | Hv]; [ left | right ];
    apply lookup_In in Hv; unfold dropna in Hv; apply filter_In in Hv; tauto.
Qed.

Lemma mec_picks_are_confirmed_witness :
  exists row_6m row_3m,
    iloc_last (momentum_since 126 (fst rising_table)) = Ok row_6m
    /\ iloc_last (momentum_since 63 (fst rising_table)) = Ok row_3m
    /\ Forall (fun pick =>
                 exists v,
                   (In (ticker pick, v) row_6m \/ In (ticker pick, v) row_3m)
                   /\ (v >? Fin 0)%num = true)
              rising_picks.
Proof.
  apply (@mec_picks_are_confirmed (fst rising_table) (snd rising_table) 40 rising_picks).
  vm_compute. reflexivity.
Defined.

(** ** Momentum rankers: the cut *)

Lemma firstn_enumerate {A} (k : nat) (start : Z) (l : list A) :
  firstn k (enumerate start l) = enumerate start (firstn k l).
Proof.
  revert k start. induction l as [ | a l IH]; intros [ | k] start; cbn; auto.
  now rewrite IH.
Qed.

Lemma picks_of_cut (n m : Z) (scores cp : Series num) :
  (0 <= n <= m)%Z ->
  picks_of (head n scores) cp = firstn (Z.to_nat n) (picks_of (head m scores) cp).
Proof.
  intros Hnm. unfold picks_of, head.
  destruct (Z.leb_spec 0 n); [ | lia ]. destruct (Z.leb_spec 0 m); [ | lia ].
  rewrite firstn_map, firstn_enumerate, firstn_firstn.
  replace (Nat.min (Z.to_nat n) (Z.to_nat m)) with (Z.to_nat n) by lia.
  reflexivity.
Qed.

(** What depends on [n_holdings] in a ranker: the cut of the sorted scores,
    and nothing before it. *)
Lemma tmem_cut (prices volume : DataFrame) :
  exists r : result (Series num * Series num),
    forall n,
      compute_tmem_top_stocks prices volume n
      = match r with
        | Ok (scores, cp) => Ok (picks_of (head n scores) cp)
        | Err e => Err e
        end.
Proof.
  unfold compute_tmem_top_stocks. cbv zeta.
  destruct (iloc_last (df_map _ (df_binop div (shift 21 prices) (shift 252 prices))))
    as [row | e]; cbn [result_bind]; [ | exists (Err e); reflexivity ].
  destruct (iloc_last prices) as [cp | e]; cbn [result_bind];
    [ | exists (Err e); reflexivity ].
  destruct (iloc_last (rolling_mean 60 (df_binop mul prices volume))) as [adv | e];
    cbn [result_bind]; [ | exists (Err e); reflexivity ].
  match goal with
  | |- context [select (dropna row) ?i] =>
      destruct (select (dropna row) i) as [sel | e];
      cbn [result_bind]; [ | exists (Err e); reflexivity ]
  end.
  exists (Ok (sort_values_desc sel, cp)). reflexivity.
Qed.

Lemma mec_cut (prices volume : DataFrame) :
  exists r : result (Series num * Series num),
    forall n,
      compute_mec_top_stocks prices volume n
      = match r with
        | Ok (scores, cp) => Ok (picks_of (head n scores) cp)
        | Err e => Err e
        end.
Proof.
  unfold compute_mec_top_stocks. cbv zeta.
  destruct (iloc_last (df_map _ (df_binop div (shift 21 prices) (shift 252 prices))))
    as [row | e]; cbn [result_bind]; [ | exists (Err e); reflexivity ].
  destruct (iloc_last (df_map _ (df_binop div (shift 21 prices) (shift 126 prices))))
    as [row_6m | e]; cbn [result_bind]; [ | exists (Err e); reflexivity ].
  destruct (iloc_last (df_map _ (df_binop div (shift 21 prices) (shift 63 prices))))
    as [row_3m | e]; cbn [result_bind]; [ | exists (Err e); reflexivity ].
  destruct (iloc_last prices) as [cp | e]; cbn [result_bind];
    [ | exists (Err e); reflexivity ].
  destruct (iloc_last (rolling_mean 60 (df_binop mul prices volume))) as [adv | e];
    cbn [result_bind]; [ | exists (Err e); reflexivity ].
  match goal with
  | |- context [select (dropna row) ?i] =>
      destruct (select (dropna row) i) as [sel | e];
      cbn [result_bind]; [ | exists (Err e); reflexivity ]
  end.
  exists (Ok (sort_values_desc sel, cp)). reflexivity.
Qed.

(** X8.  On tables with distinct column labels, asking a ranker for fewer
    holdings gives the head of the longer list: for [0 <= n <= m], the result for [n] is the first [n] picks of the
    result for [m], with the same ranks, scores and prices, and the same
    error when there is one.  With the descending order this makes the
    picks the top of the eligible tickers. *)
Theorem fewer_holdings_give_a_prefix (prices volume : DataFrame) (n m : Z) :
  (0 <= n <= m)%Z ->
  distinct_labels prices ->
  distinct_labels volume ->
  compute_tmem_top_stocks prices volume n
  = first_picks n (compute_tmem_top_stocks prices volume m)
  /\ compute_mec_top_stocks prices volume n
     = first_picks n (compute_mec_top_stocks prices volume m).
Proof.
  intros Hnm _ _. split.
  - destruct (tmem_cut prices volume) as [[[scores cp] | e] Hr]; rewrite !Hr;
      cbn [first_picks]; [ | reflexivity ].
    f_equal. now apply picks_of_cut.
  - destruct (mec_cut prices volume) as [[[scores cp] | e] Hr]; rewrite !Hr;
      cbn [first_picks]; [ | reflexivity ].
    f_equal. now apply picks_of_cut.
Qed.

Lemma fewer_holdings_give_a_prefix_witness :
  compute_tmem_top_stocks (fst tie_table) (snd tie_table) 1
  = first_picks 1 (compute_tmem_top_stocks (fst tie_table) (snd tie_table) 30)
  /\ compute_mec_top_stocks (fst tie_table) (snd tie_table) 1
     = first_picks 1 (compute_mec_top_stocks (fst tie_table) (snd tie_table) 30).
Proof.
  apply (@fewer_holdings_give_a_prefix (fst tie_table) (snd tie_table) 1 30).
  - lia.
  - repeat constructor; cbn; intuition discriminate.
  - repeat constructor; cbn; intuition discriminate.
Defined.

(** ** Data fetching: the universe tables *)

Lemma split_download_frames (tickers : list string) (data : yf_data)
  (pv : DataFrame * DataFrame) :
  split_download tickers data = Ok pv ->
  df_nrows (fst pv) = df_nrows (snd pv)
  /\ if yf_empty data then pv = (empty_frame, empty_frame)
     else match data with
          | YfMulti _ _ =>
              yf_getitem data "Adj Close" = Ok (SelFrame (fst pv))
              /\ yf_getitem data "Volume" = Ok (SelFrame (snd pv))
          | YfFlat n _ =>
              exists t rest c v,
                tickers = t :: rest
                /\ pv = ({| df_nrows := n; df_cols := [(t, c)] |},
                         {| df_nrows := n; df_cols := [(t, v)] |})
          end.
Proof.
  unfold split_download, renamed_column.
  destruct (yf_empty data).
  - intros H. inversion H. auto.
  - destruct data as [n fields | n fields]; cbn [yf_getitem yf_nrows];
      repeat (split_case; cbn [result_bind]);
      intros H; inversion H; (split; [ reflexivity | ]); cbn [fst snd as_frame].
    + split; reflexivity.
    + do 4 eexists. split; reflexivity.
Qed.

(** X9.  When [fetch_universe_data] returns, it has logged one line and
    made one download, and left the bot object alone; the two frames have the
    same number of rows.  From an empty download they are the two empty
    frames; under a MultiIndex they are the "Adj Close" and "Volume" tables
    as downloaded; from flat columns (a single ticker) each has one column,
    labelled with the first ticker of the request. *)
Theorem fetch_universe_data_frames (w : World) (tickers : list string)
  (lookback_days : Z) (s s' : Sys) (pv : DataFrame * DataFrame) :
  fetch_universe_data w tickers lookback_days s = (Normal pv, s') ->
  exists data,
    w_download w (List.length (downloads (trace s))) tickers = Ok data
    /\ s' = {| bot := bot s;
               trace := (trace s
                         ++ [Logged INFO
                               ("Fetching data for "
                                ++ decimal (Z.of_nat (List.length tickers))
                                ++ " tickers...");
                             Download tickers lookback_days])%list |}
    /\ df_nrows (fst pv) = df_nrows (snd pv)
    /\ if yf_empty data then pv = (empty_frame, empty_frame)
       else match data with
            | YfMulti _ _ =>
                yf_getitem data "Adj Close" = Ok (SelFrame (fst pv))
                /\ yf_getitem data "Volume" = Ok (SelFrame (snd pv))
            | YfFlat n _ =>
                exists t rest c v,
                  tickers = t :: rest
                  /\ pv = ({| df_nrows := n; df_cols := [(t, c)] |},
                           {| df_nrows := n; df_cols := [(t, v)] |})
            end.
Proof.
  unfold fetch_universe_data, yf_download, logger_info, emit, bind.
  cbn [bot trace]. unfold downloads at 1. rewrite filter_app. cbn [filter is_download].
  rewrite app_nil_r. fold (downloads (trace s)).
  destruct (w_download w (List.length (downloads (trace s))) tickers) as [data | e];
    cbn [lift ret raise]; [ | intros H; inversion H ].
  destruct (split_download tickers data) as [pv' | e] eqn:Hs;
    cbn [lift ret raise]; intros H; inversion H; subst.
  destruct (split_download_frames _ _ Hs) as [Hrows Hshape].
  exists data. rewrite <- app_assoc. cbn [app]. auto.
Qed.

Lemma fetch_universe_data_frames_witness :
  exists data,
    w_download (healthy jan_2) 0 ["AAA"; "BBB"] = Ok data
    /\ snd (fetch_universe_data (healthy jan_2) ["AAA"; "BBB"] 400
              {| bot := fresh_bot; trace := [] |})
       = {| bot := fresh_bot;
            trace := [Logged INFO "Fetching data for 2 tickers...";
                      Download ["AAA"; "BBB"] 400] |}
    /\ df_nrows (fst tie_table) = df_nrows (snd tie_table)
    /\ if yf_empty data then tie_table = (empty_frame, empty_frame)
       else match data with
            | YfMulti _ _ =>
                yf_getitem data "Adj Close" = Ok (SelFrame (fst tie_table))
                /\ yf_getitem data "Volume" = Ok (SelFrame (snd tie_table))
            | YfFlat n _ =>
                exists t rest c v,
                  ["AAA"; "BBB"] = t :: rest
                  /\ tie_table = ({| df_nrows := n; df_cols := [(t, c)] |},
                                  {| df_nrows := n; df_cols := [(t, v)] |})
            end.
Proof.
  apply (@fetch_universe_data_frames (healthy jan_2) ["AAA"; "BBB"] 400
           {| bot := fresh_bot; trace := [] |}
           (snd (fetch_universe_data (healthy jan_2) ["AAA"; "BBB"] 400
                   {| bot := fresh_bot; trace := [] |}))
           tie_table).
  vm_compute. reflexivity.
Defined.

(** ** The regime command *)

(** X10.  The regime command never touches the signal channels nor the
    run markers: whatever the world answers, the bot object is unchanged,
    nothing is sent to a channel, and SPY is downloaded once, with a lookback
    of 400 days.  When replies go through, the command ends normally with
    exactly one reply, the regime or the error text. *)
Theorem check_regime_posts_nothing (float_repr : num -> string)
  (exn_str : exn -> string) (w : World) (b : SignalBot) :
  bot_after (call (cmd_check_regime float_repr exn_str w) b) = b
  /\ sends (trace_of (call (cmd_check_regime float_repr exn_str w) b)) = []
  /\ downloads (trace_of (call (cmd_check_regime float_repr exn_str w) b))
     = [Download ["SPY"] 400]
  /\ ((forall text, w_reply_ok w text = true) ->
      exists text,
        call (cmd_check_regime float_repr exn_str w) b
        = (Normal tt,
           {| bot := b; trace := [Download ["SPY"] 400; Replied text] |})).
Proof.
  unfold call, bot_after, trace_of, cmd_check_regime.
  run_sys;
    (split; [ reflexivity | split; [ reflexivity | split; [ reflexivity | ] ] ]);
    intros Hreply;
    repeat match goal with
           | E : w_reply_ok _ _ = false |- _ => rewrite Hreply in E; discriminate E
           end;
    eexists; reflexivity.
Qed.

Lemma check_regime_posts_nothing_witness :
  exists text,
    call (cmd_check_regime repr_2dp exn_text (healthy jan_2)) done_bot
    = (Normal tt,
       {| bot := done_bot; trace := [Download ["SPY"] 400; Replied text] |}).
Proof.
  apply (@check_regime_posts_nothing repr_2dp exn_text (healthy jan_2) done_bot).
  reflexivity.
Defined.

Lemma yf_getitem_missing (d : yf_data) (key : string) :
  yf_has key d = false -> yf_getitem d key = Err (KeyError key).
Proof.
  assert (Hl : forall A (s : Series A), mem key (index s) = false -> lookup key s = None).
  { intros A s H. unfold lookup. destruct (find _ s) as [p | ] eqn:E; [ | reflexivity ].
    apply find_some in E. destruct E as [Hin Heq]. apply String.eqb_eq in Heq.
    assert (Hm : mem key (index s) = true).
    { apply mem_In. rewrite <- Heq. unfold index. now apply in_map. }
    congruence. }
  destruct d as [n fields | n fields]; cbn; intros H; now rewrite Hl.
Qed.

(** X11.  The regime command has no fallback to "Close": on a SPY table
    without an "Adj Close" column, on which the daily cycle computes the
    regime from "Close", the command replies with the KeyError and
    nothing else. *)
Theorem check_regime_has_no_close_fallback (float_repr : num -> string)
  (exn_str : exn -> string) (w : World) (b : SignalBot) (spy_data : yf_data) :
  w_download w 0 ["SPY"] = Ok spy_data ->
  yf_has "Adj Close" spy_data = false ->
  w_reply_ok w ("❌ Error: " ++ exn_str (KeyError "Adj Close")) = true ->
  call (cmd_check_regime float_repr exn_str w) b
  = (Normal tt,
     {| bot := b;
        trace := [Download ["SPY"] 400;
                  Replied ("❌ Error: " ++ exn_str (KeyError "Adj Close"))] |}).
Proof.
  intros Hd Hhas Hreply.
  unfold call, cmd_check_regime. unfold_sys.
  rewrite Hd. unfold adj_close_column.
  rewrite (yf_getitem_missing _ _ Hhas). cbn [result_bind].
  rewrite Hreply. reflexivity.
Qed.

Lemma check_regime_has_no_close_fallback_witness :
  call (cmd_check_regime repr_2dp exn_text (unadjusted jan_2)) fresh_bot
  = (Normal tt,
     {| bot := fresh_bot;
        trace := [Download ["SPY"] 400; Replied "❌ Error: 'Adj Close'"] |})
  /\ List.length
       (sent_to tmem_channel
          (trace_of (call (run_daily_tmem_signal repr_2dp (unadjusted jan_2)) fresh_bot)))
     = 1%nat.
Proof.
  split.
  - apply (@check_regime_has_no_close_fallback repr_2dp exn_text (unadjusted jan_2)
             fresh_bot spy_close_only); reflexivity.
  - vm_compute. reflexivity.
Defined.

(** ** Scheduler: what a tick can do *)

Lemma signal_only_app (a b : list event) :
  signal_only (a ++ b) = signal_only a && signal_only b.
Proof. apply forallb_app. Qed.

Lemma run_daily_bounds (float_repr : num -> string) (w : World) (s : Sys) :
  exists b' tr,
    run_daily_tmem_signal float_repr w s
    = (Normal tt, {| bot := b'; trace := trace s ++ tr |})
    /\ signal_only tr = true
    /\ (List.length (sends tr) <= 1)%nat
    /\ (List.length (downloads tr) <= 1)%nat.
Proof.
  destruct s as [b tr0]. run_sys.
  all: first
    [ do 2 eexists; split; [ rewrite <- ?app_assoc; reflexivity | ]
    | exists b, []; split; [ rewrite app_nil_r; reflexivity | ] ].
  all: cbn; auto.
Qed.

Lemma run_monthly_bounds (w : World) (s : Sys) :
  exists b' tr,
    run_monthly_rebalance w s
    = (Normal tt, {| bot := b'; trace := trace s ++ tr |})
    /\ signal_only tr = true
    /\ (List.length (sends tr) <= 2)%nat
    /\ (List.length (downloads tr) <= 2)%nat
    /\ (is_tmem_quarter (w_now w) = false -> sent_to tmem_channel tr = []).
Proof.
  destruct s as [b tr0]. run_sys.
  all: first
    [ do 2 eexists; split; [ rewrite <- ?app_assoc; reflexivity | ]
    | exists b, []; split; [ rewrite app_nil_r; reflexivity | ] ].
  all: cbn; repeat split; auto; congruence.
Qed.

(** X12.  A tick never raises, whatever the world does: it ends normally.
    It replies to no command and sends to no channel but the two signal
    channels, at most three messages in all, after at most three downloads.
    On a Saturday or Sunday it does nothing at all. *)
Theorem tick_never_raises (float_repr : num -> string) (w : World) (b : SignalBot) :
  fst (call (run_all_signals float_repr w) b) = Normal tt
  /\ signal_only (trace_of (call (run_all_signals float_repr w) b)) = true
  /\ (List.length (sends (trace_of (call (run_all_signals float_repr w) b))) <= 3)%nat
  /\ (List.length (downloads (trace_of (call (run_all_signals float_repr w) b))) <= 3)%nat
  /\ ((weekday (w_now w) <? 5)%Z = false ->
      call (run_all_signals float_repr w) b = (Normal tt, {| bot := b; trace := [] |})).
Proof.
  unfold call, trace_of.
  unfold run_all_signals, method, bind, ret, datetime_now.
  destruct (weekday (w_now w) <? 5)%Z eqn:W.
  - destruct (run_daily_bounds float_repr w {| bot := b; trace := [] |})
      as (b1 & tr1 & H1 & So1 & Se1 & Dl1).
    rewrite H1. cbn [app trace bot] in *.
    destruct (day (w_now w) <=? 3)%Z; cbn [andb].
    + destruct (run_monthly_bounds w {| bot := b1; trace := tr1 |})
        as (b2 & tr2 & H2 & So2 & Se2 & Dl2 & _).
      rewrite H2. cbn [fst snd trace].
      rewrite signal_only_app, So1, So2.
      unfold sends, downloads in *. rewrite !filter_app, !length_app.
      repeat split; try lia; try discriminate.
    + cbn [fst snd trace]. repeat split; try lia; auto; try discriminate.
  - rewrite andb_false_r. cbn. repeat split; auto; lia.
Qed.

Lemma tick_never_raises_witness :
  call (run_all_signals repr_2dp (offline feb_3)) fresh_bot
  = (Normal tt, {| bot := fresh_bot; trace := [] |}).
Proof.
  apply (@tick_never_raises repr_2dp (offline feb_3) fresh_bot). reflexivity.
Defined.

(** X13.  Each cycle ends normally and writes its own marker only: the
    daily cycle leaves the monthly marker alone and sends nothing to the
    MEC channel, the monthly cycle leaves the daily marker alone and, outside
    a quarter month, sends nothing to the TMEM channel.  A marker either
    keeps its value or takes the key of the current day or month. *)
Theorem cycles_write_their_own_marker (float_repr : num -> string) (w : World)
  (b : SignalBot) :
  let daily := call (run_daily_tmem_signal float_repr w) b in
  let monthly := call (run_monthly_rebalance w) b in
  fst daily = Normal tt
  /\ fst monthly = Normal tt
  /\ _last_monthly_run (bot_after daily) = _last_monthly_run b
  /\ _last_daily_run (bot_after monthly) = _last_daily_run b
  /\ (_last_daily_run (bot_after daily) = _last_daily_run b
      \/ _last_daily_run (bot_after daily) = Some (today_key w))
  /\ (_last_monthly_run (bot_after monthly) = _last_monthly_run b
      \/ _last_monthly_run (bot_after monthly) = Some (month_key w))
  /\ sent_to mec_channel (trace_of daily) = []
  /\ (is_tmem_quarter (w_now w) = false -> sent_to tmem_channel (trace_of monthly) = []).
Proof.
  cbv zeta. unfold call, bot_after, trace_of.
  destruct (run_daily_summary float_repr w {| bot := b; trace := [] |})
    as (b1 & tr1 & H1 & Hm1 & Hd1 & _ & Hmec1 & _).
  destruct (run_monthly_summary w {| bot := b; trace := [] |})
    as (b2 & tr2 & H2 & Hd2 & Hm2 & _).
  destruct (run_monthly_bounds w {| bot := b; trace := [] |})
    as (b3 & tr3 & H3 & _ & _ & _ & Hq).
  rewrite H1, H2. rewrite H2 in H3. inversion H3; subst b3 tr3.
  cbn [fst snd bot trace app] in *.
  repeat split; auto.
  - destruct Hd1 as [-> | [Hd1 _]]; auto.
  - destruct Hm2 as [-> | [Hm2 _]]; auto.
Qed.

Lemma cycles_write_their_own_marker_witness :
  sent_to tmem_channel
    (trace_of (call (run_monthly_rebalance (healthy feb_1)) fresh_bot)) = [].
Proof.
  apply (@cycles_write_their_own_marker repr_2dp (healthy feb_1) fresh_bot).
  reflexivity.
Defined.

(** ** Scheduler: the cycles when everything works *)

Lemma get_channel_found (w : World) (name : string) :
  get_channel w name <> None -> get_channel w name = Some name.
Proof.
  destruct (get_channel w name) as [ch | ] eqn:E; [ | congruence ].
  intros _. now rewrite (get_channel_name _ _ E).
Qed.

(** X14.  The daily cycle, when it is due and nothing fails (the SPY
    download is not empty and gives at least 200 closes, the TMEM channel
    exists and takes the message): it downloads SPY once, sends one message,
    the daily signal of the regime of these closes over 200 days, to the
    TMEM channel, logs it, and sets the daily marker to the current day. *)
Theorem daily_signal_is_published (float_repr : num -> string) (w : World)
  (b : SignalBot) (spy_data : yf_data) (spy_prices : list num) :
  opt_eqb (_last_daily_run b) (today_key w) = false ->
  w_download w 0 ["SPY"] = Ok spy_data ->
  yf_empty spy_data = false ->
  adj_close_series spy_data = Ok spy_prices ->
  (200 <= List.length spy_prices)%nat ->
  get_channel w tmem_channel <> None ->
  (forall text, w_send_ok w tmem_channel text = true) ->
  exists regime,
    compute_tmem_regime spy_prices 200 = Ok regime
    /\ call (run_daily_tmem_signal float_repr w) b
       = (Normal tt,
          {| bot := {| _last_daily_run := Some (today_key w);
                       _last_monthly_run := _last_monthly_run b |};
             trace :=
               [Logged INFO "Running TMEM daily regime check...";
                Download ["SPY"] 400;
                Sent tmem_channel (format_tmem_daily_signal float_repr w regime);
                Logged INFO
                  ("Posted TMEM daily signal: "
                   ++ (if is_risk_on regime then "RISK-ON" else "RISK-OFF")
                   ++ " (SPY $" ++ float_repr (spy_price regime)
                   ++ " vs SMA $" ++ float_repr (sma_value regime) ++ ")")] |}).
Proof.
  intros Hpending Hd Hne Hadj Hlen Hch Hsend.
  assert (Hreg : exists regime, compute_tmem_regime spy_prices 200 = Ok regime).
  { assert (Hs : spy_prices <> []) by (intros ->; cbn in Hlen; lia).
    read_regime. eexists. reflexivity. }
  destruct Hreg as [regime Hreg]. exists regime. split; [ exact Hreg | ].
  apply get_channel_found in Hch.
  unfold call, today_key in *. unfold_sys.
  rewrite Hpending. cbn [bot trace List.length downloads filter is_download app].
  rewrite Hd, Hne, Hadj, Hreg, Hch, Hsend. reflexivity.
Qed.

Lemma daily_signal_is_published_witness :
  exists regime,
    compute_tmem_regime (repeat (Fin 100) 200) 200 = Ok regime
    /\ call (run_daily_tmem_signal repr_2dp (healthy jan_2)) fresh_bot
       = (Normal tt,
          {| bot := {| _last_daily_run := Some (today_key (healthy jan_2));
                       _last_monthly_run := None |};
             trace :=
               [Logged INFO "Running TMEM daily regime check...";
                Download ["SPY"] 400;
                Sent tmem_channel
                  (format_tmem_daily_signal repr_2dp (healthy jan_2) regime);
                Logged INFO
                  ("Posted TMEM daily signal: "
                   ++ (if is_risk_on regime then "RISK-ON" else "RISK-OFF")
                   ++ " (SPY $" ++ repr_2dp (spy_price regime)
                   ++ " vs SMA $" ++ repr_2dp (sma_value regime) ++ ")")] |}).
Proof.
  apply (@daily_signal_is_published repr_2dp (healthy jan_2) fresh_bot
           (spy_flat 200 (Fin 100)) (repeat (Fin 100) 200)).
  - reflexivity.
  - reflexivity.
  - reflexivity.
  - vm_compute. reflexivity.
  - cbn. lia.
  - discriminate.
  - reflexivity.
Defined.

(** X15.  The monthly cycle outside a quarter month, when it is due and
    nothing fails: after the two downloads it logs that the TMEM rebalance
    is skipped, computes no regime, sends one message, the MEC report of the
    40 top picks of the downloaded tables, to the MEC channel, and sets the
    monthly marker to the current month. *)
Theorem monthly_rebalance_outside_quarter (w : World) (b : SignalBot)
  (spy_data data : yf_data) (spy_prices : list num) (prices volume : DataFrame) :
  is_tmem_quarter (w_now w) = false ->
  opt_eqb (_last_monthly_run b) (month_key w) = false ->
  (day (w_now w) >? 3)%Z = false ->
  w_download w 0 ["SPY"] = Ok spy_data ->
  w_download w 1 SP500_UNIVERSE = Ok data ->
  split_download SP500_UNIVERSE data = Ok (prices, volume) ->
  df_empty prices = false ->
  adj_close_series spy_data = Ok spy_prices ->
  get_channel w mec_channel <> None ->
  (forall text, w_send_ok w mec_channel text = true) ->
  exists picks,
    compute_mec_top_stocks prices volume 40 = Ok picks
    /\ call (run_monthly_rebalance w) b
       = (Normal tt,
          {| bot := {| _last_daily_run := _last_daily_run b;
                       _last_monthly_run := Some (month_key w) |};
             trace :=
               trace (rebalance_fetched b)
               ++ [Logged INFO
                     ("Skipping TMEM rebalance — not a quarter month (current: "
                      ++ decimal (month (w_now w)) ++ ")");
                   Sent mec_channel (format_mec_monthly_picks w picks);
                   Logged INFO
                     ("Posted MEC monthly rebalance: "
                      ++ decimal (Z.of_nat (List.length picks)) ++ " stocks")] |}).
Proof.
  intros Hq Hpending Hday Hspy Huni Hsplit Hne Hadj Hch Hsend.
  assert (Hrows : df_nrows prices <> 0%nat).
  { unfold df_empty in Hne. apply orb_false_iff in Hne.
    destruct Hne as [Hn _]. now apply Nat.eqb_neq in Hn. }
  destruct (@compute_mec_top_stocks_ranked prices volume 40 Hrows) as (picks & Hp & _).
  exists picks. split; [ exact Hp | ].
  apply get_channel_found in Hch.
  unfold call, month_key in *. unfold_sys.
  rewrite Hpending, Hday.
  cbn [bot trace List.length downloads filter is_download app].
  rewrite Hspy. cbn [bot trace List.length downloads filter is_download app].
  rewrite Huni. cbn [bot trace]. rewrite Hsplit. cbn [fst snd].
  rewrite Hne, Hadj, Hq. cbn [bot trace].
  rewrite Hp, Hch, Hsend. reflexivity.
Qed.

Lemma monthly_rebalance_outside_quarter_witness :
  exists picks,
    compute_mec_top_stocks (fst tie_table) (snd tie_table) 40 = Ok picks
    /\ call (run_monthly_rebalance (healthy feb_1)) fresh_bot
       = (Normal tt,
          {| bot := {| _last_daily_run := None;
                       _last_monthly_run := Some (month_key (healthy feb_1)) |};
             trace :=
               trace (rebalance_fetched fresh_bot)
               ++ [Logged INFO
                     ("Skipping TMEM rebalance — not a quarter month (current: "
                      ++ decimal 2 ++ ")");
                   Sent mec_channel (format_mec_monthly_picks (healthy feb_1) picks);
                   Logged INFO
                     ("Posted MEC monthly rebalance: "
                      ++ decimal (Z.of_nat (List.length picks)) ++ " stocks")] |}).
Proof.
  apply (@monthly_rebalance_outside_quarter (healthy feb_1) fresh_bot
           (spy_flat 200 (Fin 100)) universe_flat (repeat (Fin 100) 200)
           (fst tie_table) (snd tie_table)).
  - reflexivity.
  - reflexivity.
  - reflexivity.
  - reflexivity.
  - reflexivity.
  - vm_compute. reflexivity.
  - reflexivity.
  - vm_compute. reflexivity.
  - discriminate.
  - reflexivity.
Defined.

(** X16.  The monthly cycle in a quarter month, when it is due and nothing
    fails: two messages, in this order, the quarterly report to the TMEM
    channel and the monthly report to the MEC channel.  The quarterly report
    carries the regime of the SPY closes over 200 days, with the top 30 TMEM
    picks under risk-on and no pick under risk-off; the MEC report carries
    the top 40 MEC picks whatever the regime.  The monthly marker is set to
    the current month. *)
Theorem rebalance_in_quarter_month (w : World) (b : SignalBot)
  (spy_data data : yf_data) (spy_prices : list num) (prices volume : DataFrame)
  (regime : Regime) :
  is_tmem_quarter (w_now w) = true ->
  opt_eqb (_last_monthly_run b) (month_key w) = false ->
  (day (w_now w) >? 3)%Z = false ->
  w_download w 0 ["SPY"] = Ok spy_data ->
  w_download w 1 SP500_UNIVERSE = Ok data ->
  split_download SP500_UNIVERSE data = Ok (prices, volume) ->
  df_empty prices = false ->
  adj_close_series spy_data = Ok spy_prices ->
  compute_tmem_regime spy_prices 200 = Ok regime ->
  get_channel w tmem_channel <> None ->
  get_channel w mec_channel <> None ->
  (forall channel text, w_send_ok w channel text = true) ->
  exists tmem_picks mec_picks,
    (if is_risk_on regime
     then compute_tmem_top_stocks prices volume 30 = Ok tmem_picks
     else tmem_picks = [])
    /\ compute_mec_top_stocks prices volume 40 = Ok mec_picks
    /\ (List.length tmem_picks <= 30)%nat
    /\ (List.length mec_picks <= 40)%nat
    /\ call (run_monthly_rebalance w) b
       = (Normal tt,
          {| bot := {| _last_daily_run := _last_daily_run b;
                       _last_monthly_run := Some (month_key w) |};
             trace :=
               trace (rebalance_fetched b)
               ++ [Sent tmem_channel (format_tmem_monthly_picks w regime tmem_picks);
                   Logged INFO
                     ("Posted TMEM quarterly rebalance: "
                      ++ decimal (Z.of_nat (List.length tmem_picks)) ++ " stocks");
                   Sent mec_channel (format_mec_monthly_picks w mec_picks);
                   Logged INFO
                     ("Posted MEC monthly rebalance: "
                      ++ decimal (Z.of_nat (List.length mec_picks)) ++ " stocks")] |}).
Proof.
  intros Hq Hpending Hday Hspy Huni Hsplit Hne Hadj Hreg Hct Hcm Hsend.
  assert (Hrows : df_nrows prices <> 0%nat).
  { unfold df_empty in Hne. apply orb_false_iff in Hne.
    destruct Hne as [Hn _]. now apply Nat.eqb_neq in Hn. }
  destruct (@compute_mec_top_stocks_ranked prices volume 40 Hrows)
    as (mp & Hm & _ & _ & Hlm).
  destruct (@compute_tmem_top_stocks_ranked prices volume 30 Hrows)
    as (tp & Ht & _ & _ & Hlt).
  apply get_channel_found in Hct, Hcm.
  exists (if is_risk_on regime then tp else []), mp.
  split; [ destruct (is_risk_on regime); auto | ].
  split; [ exact Hm | ].
  split; [ destruct (is_risk_on regime); cbn; lia | ].
  split; [ lia | ].
  unfold call, month_key in *. unfold_sys.
  rewrite Hpending, Hday.
  cbn [bot trace List.length downloads filter is_download app].
  rewrite Hspy. cbn [bot trace List.length downloads filter is_download app].
  rewrite Huni. cbn [bot trace]. rewrite Hsplit. cbn [fst snd].
  rewrite Hne, Hadj, Hq, Hreg. cbn [bot trace].
  destruct (is_risk_on regime);
    repeat (first [ rewrite Ht | rewrite Hct | rewrite Hcm | rewrite Hsend | rewrite Hm ];
            cbn [bot trace fst snd]);
    reflexivity.
Qed.

Lemma rebalance_in_quarter_month_witness :
  exists tmem_picks mec_picks,
    tmem_picks = []
    /\ compute_mec_top_stocks (fst tie_table) (snd tie_table) 40 = Ok mec_picks
    /\ (List.length tmem_picks <= 30)%nat
    /\ (List.length mec_picks <= 40)%nat
    /\ call (run_monthly_rebalance (healthy jan_2)) fresh_bot
       = (Normal tt,
          {| bot := {| _last_daily_run := None;
                       _last_monthly_run := Some (month_key (healthy jan_2)) |};
             trace :=
               trace (rebalance_fetched fresh_bot)
               ++ [Sent tmem_channel
                     (format_tmem_monthly_picks (healthy jan_2) flat_regime tmem_picks);
                   Logged INFO
                     ("Posted TMEM quarterly rebalance: "
                      ++ decimal (Z.of_nat (List.length tmem_picks)) ++ " stocks");
                   Sent mec_channel (format_mec_monthly_picks (healthy jan_2) mec_picks);
                   Logged INFO
                     ("Posted MEC monthly rebalance: "
                      ++ decimal (Z.of_nat (List.length mec_picks)) ++ " stocks")] |}).
Proof.
  apply (@rebalance_in_quarter_month (healthy jan_2) fresh_bot
           (spy_flat 200 (Fin 100)) universe_flat (repeat (Fin 100) 200)
           (fst tie_table) (snd tie_table) flat_regime).
  - reflexivity.
  - reflexivity.
  - reflexivity.
  - reflexivity.
  - reflexivity.
  - vm_compute. reflexivity.
  - reflexivity.
  - vm_compute. reflexivity.
  - vm_compute. reflexivity.
  - discriminate.
  - discriminate.
  - reflexivity.
Defined.

Lemma risk_off_text (w : World) (regime : Regime) (picks : list Pick) :
  is_risk_on regime = false ->
  format_tmem_monthly_picks w regime picks
  = tmem_rebalance_title w regime ++ defensive_section ++ disclaimer.
Proof.
  intros Hoff.
  unfold format_tmem_monthly_picks, tmem_rebalance_title, defensive_section,
    datetime_now.
  cbv zeta. rewrite Hoff. cbn [negb]. now rewrite !append_assoc.
Qed.

(** X17.  Under a risk-off regime the quarterly rebalance ranks nothing: what
    it does does not depend on the universe tables at all (a table on which
    the ranker would raise changes nothing).  It sends the title, the
    defensive section and the disclaimer to the TMEM channel and logs that
    it posted 0 stocks. *)
Theorem risk_off_rebalance_ranks_nothing (w : World) (spy_prices : list num)
  (prices volume : DataFrame) (regime : Regime) (s : Sys) :
  compute_tmem_regime spy_prices 200 = Ok regime ->
  is_risk_on regime = false ->
  get_channel w tmem_channel <> None ->
  w_send_ok w tmem_channel
    (tmem_rebalance_title w regime ++ defensive_section ++ disclaimer) = true ->
  tmem_quarterly_rebalance w spy_prices prices volume s
  = (Normal tt,
     {| bot := bot s;
        trace :=
          trace s
          ++ [Sent tmem_channel
                (tmem_rebalance_title w regime ++ defensive_section ++ disclaimer);
              Logged INFO "Posted TMEM quarterly rebalance: 0 stocks"] |}).
Proof.
  intros Hreg Hoff Hch Hsend.
  apply get_channel_found in Hch.
  unfold_sys. rewrite Hreg, Hoff, Hch.
  rewrite (risk_off_text w regime [] Hoff), Hsend.
  cbn [bot trace]. rewrite <- app_assoc. reflexivity.
Qed.

Lemma risk_off_rebalance_ranks_nothing_witness :
  tmem_quarterly_rebalance (healthy jan_2) (repeat (Fin 100) 200)
    empty_frame empty_frame {| bot := fresh_bot; trace := [] |}
  = (Normal tt,
     {| bot := fresh_bot;
        trace :=
          [Sent tmem_channel
             (tmem_rebalance_title (healthy jan_2) flat_regime
              ++ defensive_section ++ disclaimer);
           Logged INFO "Posted TMEM quarterly rebalance: 0 stocks"] |}).
Proof.
  apply (@risk_off_rebalance_ranks_nothing (healthy jan_2) (repeat (Fin 100) 200)
           empty_frame empty_frame flat_regime {| bot := fresh_bot; trace := [] |}).
  - vm_compute. reflexivity.
  - reflexivity.
  - discriminate.
  - reflexivity.
Defined.
